(** * SmartAgro: the Flask application [app.py], embedded and verified

    The first half follows [app.py] top to bottom: configuration constants,
    the [users] table, the utilities ([allowed_file], [prepare_image],
    [require_login]) and the view functions. The second half states and
    proves the properties, claim by claim.

    Python values are modelled as follows.
    - A [str] is a [string]; one [ascii] stands for one character with
      code point below 256.
    - The Flask [session] is a dictionary with string keys: a
      [gmap string (SVal F)].
    - The rows of the [users] table are a list in insertion order; the
      upload folder is a map from path to bytes.
    - An exception is a value of [PyExc]; a view either returns a response
      or lets an exception escape ([Outcome]).
    - numpy floats, the image decoder, the Keras model, the Unicode
      normaliser used by [secure_filename], the outcome of [file.save] and
      passlib's bcrypt are section variables: the application only calls
      them. The calls that sit outside a [try] can raise, and do so in the
      model. The host is POSIX. *)

From stdpp Require Import gmap strings list fin_maps.
From Stdlib Require Import Ascii ZArith QArith Lia.

Close Scope Q_scope.


(** ** Python [str] methods used by the application *)

Module Py.

Definition code (c : ascii) : N := N_of_ascii c.

(** [str.isspace] on one character (code points below 256). *)
Definition isspace (c : ascii) : bool :=
  let n := code c in
  ((9 <=? n) && (n <=? 13) || (28 <=? n) && (n <=? 32)
   || (n =? 133) || (n =? 160))%N.

(** [str.lower] on one character: A-Z, and the Latin-1 capitals
    U+00C0..U+00DE except the multiplication sign U+00D7. *)
Definition lower_char (c : ascii) : ascii :=
  let n := code c in
  if ((65 <=? n) && (n <=? 90)
      || (192 <=? n) && (n <=? 222) && negb (n =? 215))%N
  then ascii_of_N (n + 32) else c.

Fixpoint lower (s : string) : string :=
  match s with
  | EmptyString => EmptyString
  | String c s' => String (lower_char c) (lower s')
  end.

Fixpoint lstrip_with (p : ascii -> bool) (s : string) : string :=
  match s with
  | EmptyString => EmptyString
  | String c s' => if p c then lstrip_with p s' else s
  end.

Fixpoint rstrip_with (p : ascii -> bool) (s : string) : string :=
  match s with
  | EmptyString => EmptyString
  | String c s' =>
      match rstrip_with p s' with
      | EmptyString => if p c then EmptyString else String c EmptyString
      | r => String c r
      end
  end.

(** [s.strip(chars)] with the character set given as a predicate. *)
Definition strip_with (p : ascii -> bool) (s : string) : string :=
  rstrip_with p (lstrip_with p s).

(** [s.strip()] *)
Definition strip (s : string) : string := strip_with isspace s.

(** [c in s] for a one-character [c]. *)
Fixpoint contains (c : ascii) (s : string) : bool :=
  match s with
  | EmptyString => false
  | String d s' => if Ascii.eqb d c then true else contains c s'
  end.

(** [s.rsplit(c, 1)]: [None] when [c] does not occur (Python then returns
    the one-element list [[s]]), otherwise the text before and after the
    last occurrence. *)
Fixpoint rsplit1 (c : ascii) (s : string) : option (string * string) :=
  match s with
  | EmptyString => None
  | String d s' =>
      match rsplit1 c s' with
      | Some (a, b) => Some (String d a, b)
      | None => if Ascii.eqb d c then Some (EmptyString, s') else None
      end
  end.

(** [s.split(c)] *)
Fixpoint split (c : ascii) (s : string) : list string :=
  match s with
  | EmptyString => [EmptyString]
  | String d s' =>
      if Ascii.eqb d c then EmptyString :: split c s'
      else match split c s' with
           | w :: ws => String d w :: ws
           | [] => [String d EmptyString]
           end
  end.

(** [s.split()]: the maximal runs of non-whitespace characters. *)
Fixpoint split_ws (s : string) : list string :=
  match s with
  | EmptyString => []
  | String c s' =>
      if isspace c then split_ws s'
      else match s' with
           | EmptyString => [String c EmptyString]
           | String c' _ =>
               if isspace c' then String c EmptyString :: split_ws s'
               else match split_ws s' with
                    | w :: ws => String c w :: ws
                    | [] => [String c EmptyString]
                    end
           end
  end.

(** [sep.join(l)] *)
Fixpoint join (sep : string) (l : list string) : string :=
  match l with
  | [] => EmptyString
  | [w] => w
  | w :: ws => w +:+ sep +:+ join sep ws
  end.

(** [s.replace(c, d)] for one-character [c] and [d]. *)
Fixpoint replace_char (c d : ascii) (s : string) : string :=
  match s with
  | EmptyString => EmptyString
  | String e s' => String (if Ascii.eqb e c then d else e) (replace_char c d s')
  end.

(** [re.sub] of every character outside the class [keep] by nothing. *)
Fixpoint filter_chars (keep : ascii -> bool) (s : string) : string :=
  match s with
  | EmptyString => EmptyString
  | String c s' =>
      if keep c then String c (filter_chars keep s') else filter_chars keep s'
  end.

Fixpoint all_chars (p : ascii -> bool) (s : string) : bool :=
  match s with
  | EmptyString => true
  | String c s' => p c && all_chars p s'
  end.

Definition startswith_char (c : ascii) (s : string) : bool :=
  match s with
  | String d _ => Ascii.eqb d c
  | EmptyString => false
  end.

Fixpoint endswith_char (c : ascii) (s : string) : bool :=
  match s with
  | EmptyString => false
  | String d EmptyString => Ascii.eqb d c
  | String _ s' => endswith_char c s'
  end.

Definition nonempty (s : string) : bool :=
  match s with EmptyString => false | _ => true end.

End Py.

(** ** Configuration ([app.py], lines 13-24) *)

Definition ALLOWED_EXTENSIONS : list string := ["png"; "jpg"; "jpeg"].
Definition class_names : list string :=
  ["Healthy"; "Mosaic"; "RedRot"; "Rust"; "Yellow"].

Definition in_strings (s : string) (l : list string) : bool :=
  existsb (String.eqb s) l.

(** ** Utilities *)

(** [allowed_file] (lines 48-49). *)
Definition allowed_file (filename : string) : bool :=
  Py.contains "." filename &&
  match Py.rsplit1 "." filename with
  | Some (_, ext) => in_strings (Py.lower ext) ALLOWED_EXTENSIONS
  | None => false
  end.

(** ** Exceptions and dynamically typed values *)

Inductive PyExc : Type := Exc (kind : string).

Inductive Result (A : Type) : Type :=
| Ok (a : A)
| Raise (e : PyExc).
Arguments Ok {A} a.
Arguments Raise {A} e.

(** The value bound to [confidence]: a float on the success path, the
    integer literal [0] in the [except] branch. *)
Inductive PyNum (F : Type) : Type :=
| PyFloat (x : F)
| PyInt (z : Z).
Arguments PyFloat {F} x.
Arguments PyInt {F} z.

(** ** numpy reductions over a float array

    [F] is the type of floats, [leb] their [<=], [isnan] the NaN test. *)

Section Numpy.
Context {F : Type}.
Variable leb : F -> F -> bool.
Variable isnan : F -> bool.

(** The scan of [np.argmax]: [mp] is the running maximum found at
    [max_ind], [i] the index of the head of [rest]; a NaN ends it. *)
Fixpoint argmax_loop (mp : F) (max_ind i : nat) (rest : list F) : nat :=
  match rest with
  | [] => max_ind
  | x :: rest' =>
      if negb (leb x mp)
      then if isnan x then i else argmax_loop x i (S i) rest'
      else argmax_loop mp max_ind (S i) rest'
  end.

Definition np_argmax (a : list F) : Result nat :=
  match a with
  | [] => Raise (Exc "ValueError")
  | x :: rest => if isnan x then Ok 0 else Ok (argmax_loop x 0 1 rest)
  end.

(** [np.maximum] on two scalars, and [np.max] as its reduction. *)
Definition np_maximum (a b : F) : F :=
  if leb b a || isnan a then a else b.

Definition np_max (a : list F) : Result F :=
  match a with
  | [] => Raise (Exc "ValueError")
  | x :: rest => Ok (fold_left np_maximum rest x)
  end.

End Numpy.

(** ** Storage names and paths *)

(** The character class [[A-Za-z0-9_.-]]. *)
Definition safe_char (c : ascii) : bool :=
  let n := Py.code c in
  ((48 <=? n) && (n <=? 57) || (65 <=? n) && (n <=? 90)
   || (97 <=? n) && (n <=? 122)
   || (n =? 95) || (n =? 46) || (n =? 45))%N.

Definition dot_or_underscore (c : ascii) : bool :=
  Ascii.eqb c "." || Ascii.eqb c "_".

(** Modelled from the spec: [secure_filename] is imported from werkzeug and
    its body is not part of [app.py]. The spec (4.4) says the validated name
    "strips path components and unsafe characters from the original
    filename". The definition does so the way werkzeug does on a POSIX host:
    the name is folded to ASCII ([ascii_fold], the Unicode normalisation, is
    left open), every separator [/] becomes a blank, the blank-separated
    pieces are joined by [_], every character outside [[A-Za-z0-9_.-]] is
    dropped, and leading and trailing dots and underscores are removed. *)
Definition secure_filename (ascii_fold : string -> string)
    (filename : string) : string :=
  let filename := ascii_fold filename in
  let filename := Py.replace_char "/" " " filename in
  Py.strip_with dot_or_underscore
    (Py.filter_chars safe_char (Py.join "_" (Py.split_ws filename))).

(** [os.path.join] of two components on a POSIX host. *)
Definition os_path_join (a b : string) : string :=
  if Py.startswith_char "/" b then b
  else if negb (Py.nonempty a) || Py.endswith_char "/" a then a +:+ b
  else a +:+ "/" +:+ b.

Definition UPLOAD_FOLDER : string := os_path_join "static" "uploads".

Definition is_nil {A} (l : list A) : bool :=
  match l with [] => true | _ => false end.

(** How a POSIX path resolves, symbolic links aside (the component rule of
    [os.path.normpath]): empty and [.] components vanish, [..] removes the
    component before it, and is kept when a relative path has nothing left
    to remove. *)
Definition norm_step (absolute : bool) (new_comps : list string)
    (comp : string) : list string :=
  if String.eqb comp "" || String.eqb comp "." then new_comps
  else if negb (String.eqb comp "..")
          || (negb absolute && is_nil new_comps)
          || match last new_comps with
             | Some c => String.eqb c ".."
             | None => false
             end
       then new_comps ++ [comp]
       else removelast new_comps.

Definition resolve (path : string) : bool * list string :=
  let absolute := Py.startswith_char "/" path in
  (absolute, fold_left (norm_step absolute) (Py.split "/" path) []).

(** A path stays in the upload area when it is relative to the working
    directory and resolves to [static/uploads] or below. *)
Definition inside_upload_area (path : string) : Prop :=
  exists rest, resolve path = (false, "static" :: "uploads" :: rest).

(** ** Application state *)

(** One uploaded file ([werkzeug.FileStorage]): its client-side name and its
    bytes. Its truth value is that of its [filename]. *)
Record FileStorage : Type := {
  filename : string;
  stream : string
}.

(** One entry of the session's history (lines 146-151). *)
Record DiagnosisRecord (F : Type) : Type := {
  rec_filename : string;
  rec_prediction : string;
  rec_confidence : PyNum F;
  rec_image_url : string
}.
Arguments rec_filename {F} _.
Arguments rec_prediction {F} _.
Arguments rec_confidence {F} _.
Arguments rec_image_url {F} _.

(** The values the application stores in [session]. *)
Inductive SVal (F : Type) : Type :=
| SStr (s : string)
| SList (l : list (DiagnosisRecord F)).
Arguments SStr {F} s.
Arguments SList {F} l.

(** A row of the [users] table (lines 31-35), one field per column. *)
Record User : Type := {
  row_id : Z;
  row_username : string;
  row_password : string
}.

(** What outlives a request on the server: the table and the upload folder
    (path to bytes). *)
Record World : Type := {
  users : list User;
  uploads : gmap string string
}.

Record Request : Type := {
  method : string;
  form : gmap string string;
  files : gmap string FileStorage
}.

Inductive Response (F : Type) : Type :=
| Redirect (endpoint : string)
| RenderIndex
| RenderSignup (error : option string)
| RenderLogin (error : option string)
| RenderDiagnose (prediction : option string)
                 (confidence : option (PyNum F))
                 (image_url : option string)
| RenderInfo (disease : string)
| RenderAbout
| RenderHistory (history : SVal F)
| Text (body : string)
| BadRequest.
Arguments Redirect {F} endpoint.
Arguments RenderIndex {F}.
Arguments RenderSignup {F} error.
Arguments RenderLogin {F} error.
Arguments RenderDiagnose {F} prediction confidence image_url.
Arguments RenderInfo {F} disease.
Arguments RenderAbout {F}.
Arguments RenderHistory {F} history.
Arguments Text {F} body.
Arguments BadRequest {F}.

(** A view returns a response or lets an exception escape (the request then
    fails with a server error). *)
Inductive Outcome (F : Type) : Type :=
| Returned (r : Response F)
| Raised (e : PyExc).
Arguments Returned {F} r.
Arguments Raised {F} e.

(** ** The [users] table *)

(** [SELECT * FROM users WHERE username=?] followed by [fetchone]. *)
Definition find_user (name : string) (rows : list User) : option User :=
  find (fun u => String.eqb (row_username u) name) rows.

(** [AUTOINCREMENT]: one more than the largest id handed out (no row is
    ever deleted). *)
Definition next_id (rows : list User) : Z :=
  (1 + fold_right Z.max 0 (map row_id rows))%Z.

(** [INSERT INTO users (username, password) VALUES (?, ?)] under the
    [UNIQUE] constraint on [username]. *)
Definition insert_user (name pw : string) (rows : list User)
    : Result (list User) :=
  match find_user name rows with
  | Some _ => Raise (Exc "IntegrityError")
  | None =>
      Ok (rows ++ [{| row_id := next_id rows; row_username := name;
                      row_password := pw |}])
  end.

(** Result of the [try] block of [diagnose]: either it ran to its end, or an
    exception left it, with [image_url] already assigned or not. *)
Inductive TryResult (F : Type) : Type :=
| TryOk (prediction : string) (confidence : PyNum F) (image_url : string)
        (session' : gmap string (SVal F))
| TryExc (e : PyExc) (image_url : option string).
Arguments TryOk {F} prediction confidence image_url session'.
Arguments TryExc {F} e image_url.

(** The routes of the application (the [@app.route] lines). *)
Inductive Route : Type :=
| RIndex
| RSignup
| RLogin
| RLogout
| RDiagnose
| RInfo (disease : string)
| RAbout
| RHistory
| RClearHistory
| RPing.

(** The routes that call for a logged-in user: the index, [/diagnose],
    [/info/<disease>], [/history] and [/clear_history]. *)
Definition session_protected (r : Route) : bool :=
  match r with
  | RIndex | RDiagnose | RInfo _ | RHistory | RClearHistory => true
  | RSignup | RLogin | RLogout | RAbout | RPing => false
  end.

(** One request of a browsing session: the route it is for, the request,
    and the salt [bcrypt.hash] draws should the view reach it. *)
Record Call : Type := {
  call_salt : string;
  call_route : Route;
  call_request : Request
}.

(** ** The views *)

Section App.
Context {F Tensor : Type}.

(** numpy's float comparison and NaN test; [x * 100] and [round(x, 2)]
    on floats. *)
Variable leb : F -> F -> bool.
Variable isnan : F -> bool.
Variable times100 : F -> F.
Variable round2 : F -> F.
(** [load_img], [img_to_array], the division by 255 and [expand_dims], as
    a function of the bytes of the file. *)
Variable decode_image : string -> Result Tensor.
(** [model.predict], its output flattened. *)
Variable model_predict : Tensor -> Result (list F).
(** The Unicode folding inside [secure_filename]. *)
Variable ascii_fold : string -> string.
(** Whether [file.save] raises for a path and the bytes to put there (a
    name the file system refuses, a full disk), and with what. *)
Variable save_raises : string -> string -> option PyExc.
(** passlib's [bcrypt.hash] (with the salt it draws) and [bcrypt.verify];
    either may raise (passlib does on a password with a NUL character). *)
Variable bcrypt_hash : string -> string -> Result string.
Variable bcrypt_verify : string -> string -> Result bool.

Local Abbreviation session := (gmap string (SVal F)).
Local Abbreviation reply := (Outcome F * gmap string (SVal F) * World)%type.

(** [session.get("history", [])] *)
Definition session_history (s : session) : SVal F :=
  default (SList []) (s !! "history").

(** [prepare_image] (lines 51-55) reads the file back from the upload
    folder. *)
Definition prepare_image (image_path : string) (w : World)
    : Result Tensor :=
  match uploads w !! image_path with
  | Some bytes => decode_image bytes
  | None => Raise (Exc "FileNotFoundError")
  end.

(** [require_login] (lines 57-60): [Some] redirect when no user is
    logged in. *)
Definition require_login (s : session) : option (Response F) :=
  match s !! "user" with
  | None => Some (Redirect "login")
  | Some _ => None
  end.

Definition index (s : session) (w : World) : reply :=
  match s !! "user" with
  | None => (Returned (Redirect "login"), s, w)
  | Some _ => (Returned RenderIndex, s, w)
  end.

(** [signup] (lines 70-91); [salt] is the randomness [bcrypt.hash] draws.
    The hash is computed on line 79, before the [try]: what it raises
    leaves the view. *)
Definition signup (salt : string) (req : Request) (s : session)
    (w : World) : reply :=
  if String.eqb (method req) "POST" then
    match form req !! "username" with
    | None => (Returned BadRequest, s, w)
    | Some u =>
      match form req !! "password" with
      | None => (Returned BadRequest, s, w)
      | Some p =>
        let username := Py.strip u in
        let password := Py.strip p in
        if negb (Py.nonempty username) || negb (Py.nonempty password) then
          (Returned (RenderSignup (Some "Username and password required")),
           s, w)
        else
          match bcrypt_hash salt password with
          | Raise e => (Raised e, s, w)
          | Ok hashed_pw =>
            match insert_user username hashed_pw (users w) with
            | Ok rows =>
                (Returned (Redirect "login"), s,
                 {| users := rows; uploads := uploads w |})
            | Raise _ =>
                (Returned (RenderSignup (Some "Username already exists")),
                 s, w)
            end
          end
      end
    end
  else (Returned (RenderSignup None), s, w).

(** [login] (lines 94-110). [bcrypt.verify] is called only when the
    username has a row (the [and] of line 104), and no [try] surrounds it:
    what it raises leaves the view. *)
Definition login (req : Request) (s : session) (w : World) : reply :=
  if String.eqb (method req) "POST" then
    match form req !! "username" with
    | None => (Returned BadRequest, s, w)
    | Some u =>
      match form req !! "password" with
      | None => (Returned BadRequest, s, w)
      | Some p =>
        let username := Py.strip u in
        let password := Py.strip p in
        match find_user username (users w) with
        | Some user =>
            match bcrypt_verify password (row_password user) with
            | Raise e => (Raised e, s, w)
            | Ok true =>
                let s1 := <["user" := SStr username]> s in
                let s2 := match s1 !! "history" with
                          | Some _ => s1
                          | None => <["history" := SList []]> s1
                          end in
                (Returned (Redirect "index"), s2, w)
            | Ok false =>
                (Returned (RenderLogin (Some "Invalid credentials")), s, w)
            end
        | None =>
            (Returned (RenderLogin (Some "Invalid credentials")), s, w)
        end
      end
    end
  else (Returned (RenderLogin None), s, w).

(** The session [login] leaves on success: line 105, then line 106. *)
Definition logged_in_as (name : string) (s : gmap string (SVal F))
    : gmap string (SVal F) :=
  match s !! "history" with
  | Some _ => <["user" := SStr name]> s
  | None => <["history" := SList []]> (<["user" := SStr name]> s)
  end.

(** [logout] (lines 113-117). *)
Definition logout (s : session) (w : World) : reply :=
  (Returned (Redirect "login"), delete "history" (delete "user" s), w).

(** The body of the [try] block of [diagnose] (lines 139-152). *)
Definition classify_and_record (img : Tensor) (filename : string)
    (s : session) : TryResult F :=
  match model_predict img with
  | Raise e => TryExc e None
  | Ok preds =>
    match np_argmax leb isnan preds with
    | Raise e => TryExc e None
    | Ok i =>
      match class_names !! i with
      | None => TryExc (Exc "IndexError") None
      | Some prediction =>
        match np_max leb isnan preds with
        | Raise e => TryExc e None
        | Ok m =>
          let confidence := PyFloat (round2 (times100 m)) in
          let image_url := "/static/uploads/" +:+ filename in
          match session_history s with
          | SList history =>
              let history' :=
                history ++ [{| rec_filename := filename;
                               rec_prediction := prediction;
                               rec_confidence := confidence;
                               rec_image_url := image_url |}] in
              TryOk prediction confidence image_url
                    (<["history" := SList history']> s)
          | SStr _ => TryExc (Exc "AttributeError") (Some image_url)
          end
        end
      end
    end
  end.

(** The record lines 146-151 build from a storage name, a label and the
    largest probability. *)
Definition new_record (name prediction : string) (m : F)
    : DiagnosisRecord F :=
  {| rec_filename := name;
     rec_prediction := prediction;
     rec_confidence := PyFloat (round2 (times100 m));
     rec_image_url := "/static/uploads/" +:+ name |}.

(** The test of line 132 on [request.files.get("leaf_image")]. *)
Definition upload_accepted (file : option FileStorage) : bool :=
  match file with
  | None => false
  | Some f =>
      Py.nonempty (filename f)
      && negb (String.eqb (filename f) "")
      && allowed_file (filename f)
  end.

Definition render_nothing (s : session) (w : World) : reply :=
  (Returned (RenderDiagnose None None None), s, w).

(** [diagnose] (lines 120-164). [file.save] (line 135, before the [try])
    either raises, which leaves the view with nothing stored, or puts the
    bytes of the upload at [file_path]. *)
Definition diagnose (req : Request) (s : session) (w : World) : reply :=
  match require_login s with
  | Some gate => (Returned gate, s, w)
  | None =>
    if String.eqb (method req) "POST" then
      let file := files req !! "leaf_image" in
      if upload_accepted file then
        match file with
        | None => render_nothing s w
        | Some f =>
          let filename := secure_filename ascii_fold (filename f) in
          let file_path := os_path_join UPLOAD_FOLDER filename in
          match save_raises file_path (stream f) with
          | Some e => (Raised e, s, w)
          | None =>
            let w1 := {| users := users w;
                         uploads := <[file_path := stream f]> (uploads w) |} in
            match prepare_image file_path w1 with
            | Raise e => (Raised e, s, w1)
            | Ok img =>
              match classify_and_record img filename s with
              | TryOk prediction confidence image_url s' =>
                  (Returned (RenderDiagnose (Some prediction)
                               (Some confidence) (Some image_url)), s', w1)
              | TryExc _ image_url =>
                  (Returned (RenderDiagnose (Some "Error")
                               (Some (PyInt 0)) image_url), s, w1)
              end
            end
          end
        end
      else render_nothing s w
    else render_nothing s w
  end.

(** [info], [about], [history], [clear_history], [ping]
    (lines 167-198). *)
Definition info (disease : string) (s : session) (w : World) : reply :=
  match require_login s with
  | Some gate => (Returned gate, s, w)
  | None => (Returned (RenderInfo disease), s, w)
  end.

Definition about (s : session) (w : World) : reply :=
  (Returned RenderAbout, s, w).

Definition history (s : session) (w : World) : reply :=
  match require_login s with
  | Some gate => (Returned gate, s, w)
  | None => (Returned (RenderHistory (session_history s)), s, w)
  end.

Definition clear_history (s : session) (w : World) : reply :=
  match require_login s with
  | Some gate => (Returned gate, s, w)
  | None => (Returned (Redirect "history"), delete "history" s, w)
  end.

Definition ping (s : session) (w : World) : reply :=
  (Returned (Text "pong"), s, w).

(** The view bound to each route. Flask calls it for the requests whose
    path and method match the route; that matching is Flask's and is not
    modelled. *)
Definition call_view (salt : string) (r : Route) (req : Request)
    (s : session) (w : World) : reply :=
  match r with
  | RIndex => index s w
  | RSignup => signup salt req s w
  | RLogin => login req s w
  | RLogout => logout s w
  | RDiagnose => diagnose req s w
  | RInfo disease => info disease s w
  | RAbout => about s w
  | RHistory => history s w
  | RClearHistory => clear_history s w
  | RPing => ping s w
  end.

(** Upload requests served one after the other in the same session. *)
Fixpoint run_diagnoses (reqs : list Request) (s : session) (w : World)
    : list (Outcome F) * gmap string (SVal F) * World :=
  match reqs with
  | [] => ([], s, w)
  | req :: reqs' =>
      let '(o, s1, w1) := diagnose req s w in
      let '(os, s2, w2) := run_diagnoses reqs' s1 w1 in
      (o :: os, s2, w2)
  end.

(** The record a request appended, read off the request and its
    response: a float confidence marks the end of the [try] block. *)
Definition successful_append (req : Request) (o : Outcome F)
    : option (DiagnosisRecord F) :=
  match files req !! "leaf_image", o with
  | Some f, Returned (RenderDiagnose (Some p) (Some (PyFloat c)) (Some url)) =>
      Some {| rec_filename := secure_filename ascii_fold (filename f);
              rec_prediction := p;
              rec_confidence := PyFloat c;
              rec_image_url := url |}
  | _, _ => None
  end.

(** Requests of any kind served one after the other with the same cookie. *)
Fixpoint serve_all (calls : list Call) (s : session) (w : World)
    : gmap string (SVal F) * World :=
  match calls with
  | [] => (s, w)
  | c :: calls' =>
      let '(_, s1, w1) :=
        call_view (call_salt c) (call_route c) (call_request c) s w in
      serve_all calls' s1 w1
  end.

End App.

(** What [signup] maintains of the table: no row has an empty username
    (line 76 turns such a request away before the insert). *)
Definition usernames_nonempty (rows : list User) : Prop :=
  Forall (fun r => row_username r <> "") rows.

(** ** Invariants of the table and of the session *)

(** What the schema (lines 31-35) and [signup] together keep of the table:
    usernames pairwise distinct, ids pairwise distinct and positive, every
    username non-empty and equal to its own [strip]. *)
Definition store_ok (rows : list User) : Prop :=
  NoDup (map row_username rows) /\
  NoDup (map row_id rows) /\
  Forall (fun r => row_username r <> "" /\
                   Py.strip (row_username r) = row_username r /\
                   (0 < row_id r)%Z) rows.

(** A history entry as lines 146-151 build it: a label of [class_names], a
    float confidence, a storage name of safe characters and the URL of
    that name under [/static/uploads/]. *)
Definition record_ok {F : Type} (r : DiagnosisRecord F) : Prop :=
  In (rec_prediction r) class_names /\
  (exists x, rec_confidence r = PyFloat x) /\
  Py.all_chars safe_char (rec_filename r) = true /\
  rec_image_url r = "/static/uploads/" +:+ rec_filename r.

(** The shape the views give the session: ["user"] bound to a string,
    ["history"] to a list of such entries. *)
Definition session_ok {F : Type} (s : gmap string (SVal F)) : Prop :=
  (forall v, s !! "user" = Some v -> exists name, v = SStr name) /\
  (forall v, s !! "history" = Some v ->
             exists h, v = SList h /\ Forall record_ok h).

(** ** The spec's wording of the upload rule *)

(** The rejection rule as the spec words it: empty filename, empty content,
    or final dot-delimited segment not an allowed extension. *)
Definition final_segment (name : string) : string :=
  default "" (last (Py.split "." name)).

Definition spec_rejects (f : FileStorage) : Prop :=
  filename f = "" \/ stream f = "" \/
  ~ In (Py.lower (final_segment (filename f))) ALLOWED_EXTENSIONS.

(** ** A concrete environment

    Stand-ins for the collaborators, to run the views on examples: rational
    numbers for the floats, a decoder that fails on an empty file, a model
    with three behaviours, a file system that refuses names of more than
    255 characters, and a transparent password hash that, like passlib's,
    refuses a password with a NUL character. None of them models the real
    library; the theorems below hold for every choice. *)

Module Demo.

Definition leb (a b : Q) : bool := Qle_bool a b.
Definition isnan (_ : Q) : bool := false.
Definition times100 (x : Q) : Q := Qred (x * 100)%Q.

(** Rounding to two decimals, ties to even. *)
Definition round2 (x : Q) : Q :=
  let n := (Qnum x * 100)%Z in
  let d := Zpos (Qden x) in
  let fl := (n / d)%Z in
  let r := (n mod d)%Z in
  let z := if (2 * r <? d)%Z then fl
           else if (d <? 2 * r)%Z then (fl + 1)%Z
           else if Z.even fl then fl else (fl + 1)%Z in
  Qred (z # 100)%Q.

Definition decode_image (bytes : string) : Result string :=
  if Py.nonempty bytes then Ok bytes
  else Raise (Exc "UnidentifiedImageError").

Definition model_predict (img : string) : Result (list Q) :=
  if String.eqb img "rust leaf"
  then Ok [1 # 100; 2 # 100; 5 # 100; 87 # 100; 5 # 100]%Q
  else if String.eqb img "bad tensor"
  then Raise (Exc "InvalidArgumentError")
  else Ok [90 # 100; 4 # 100; 3 # 100; 2 # 100; 1 # 100]%Q.

Definition ascii_fold (s : string) : string :=
  Py.filter_chars (fun c => (Py.code c <? 128)%N) s.

(** [path] is [static/uploads/] (15 characters) and the storage name. *)
Definition save_raises (path bytes : string) : option PyExc :=
  if 15 + 255 <? String.length path then Some (Exc "OSError") else None.

Definition has_nul (pw : string) : bool := Py.contains "000" pw.

Definition bcrypt_hash (salt pw : string) : Result string :=
  if has_nul pw then Raise (Exc "PasswordValueError")
  else Ok (salt +:+ "$" +:+ pw).

Definition bcrypt_verify (pw hash : string) : Result bool :=
  if has_nul pw then Raise (Exc "PasswordValueError")
  else match Py.rsplit1 "$" hash with
       | Some (_, p) => Ok (String.eqb p pw)
       | None => Ok false
       end.

Definition alice : User :=
  {| row_id := 1; row_username := "alice";
     row_password := "c2FsdA$pw123" |}.

(** A password with a NUL character in it, and a name of 304 characters. *)
Definition nul_password : string := String "a" (String "000" "b").


Definition world0 : World := {| users := [alice]; uploads := ∅ |}.

Definition anonymous : gmap string (SVal Q) := ∅.

Definition logged_in : gmap string (SVal Q) :=
  <["history" := SList []]> (<["user" := SStr "alice"]> ∅).

Definition post_file (name bytes : string) : Request :=
  {| method := "POST"; form := ∅;
     files := {["leaf_image" := {| filename := name; stream := bytes |}]} |}.

Definition post_form (u p : string) : Request :=
  {| method := "POST";
     form := <["password" := p]> {["username" := u]};
     files := ∅ |}.

Definition get : Request := {| method := "GET"; form := ∅; files := ∅ |}.

Definition two_uploads : list Request :=
  [post_file "../x/rust leaf.PNG" "rust leaf"; post_file "field.jpg" "green"].

Definition two_records : list (DiagnosisRecord Q) :=
  [new_record times100 round2 "x_rust_leaf.PNG" "Rust" (87 # 100)%Q;
   new_record times100 round2 "field.jpg" "Healthy" (90 # 100)%Q].

(** A model trained on six classes, one more than [class_names] lists. *)
Definition model_six (img : string) : Result (list Q) :=
  Ok [1 # 100; 2 # 100; 3 # 100; 4 # 100; 5 # 100; 85 # 100]%Q.

Definition bob_form : Request := post_form " bob " "s3cret".

Definition one_record : list (DiagnosisRecord Q) :=
  [new_record times100 round2 "field.jpg" "Healthy" (90 # 100)%Q].

Definition with_history : gmap string (SVal Q) :=
  <["history" := SList one_record]> logged_in.

Definition call (salt : string) (r : Route) (req : Request) : Call :=
  {| call_salt := salt; call_route := r; call_request := req |}.

(** A visit: sign up, log in, upload twice, look at the history, try to
    sign up again, clear the history, log out. *)
Definition visit : list Call :=
  [call "Ym9i" RSignup bob_form;
   call "" RLogin (post_form "bob" "s3cret");
   call "" RDiagnose (post_file "a b.png" "rust leaf");
   call "" RDiagnose (post_file "a/b.png" "green");
   call "" RHistory get;
   call "eA" RSignup (post_form "bob" "other");
   call "" RClearHistory get;
   call "" RLogout get].

Definition signup := @signup Q bcrypt_hash.
Definition login := @login Q bcrypt_verify.
Definition diagnose :=
  @diagnose Q string leb isnan times100 round2 decode_image model_predict
            ascii_fold save_raises.
Definition call_view :=
  @call_view Q string leb isnan times100 round2 decode_image model_predict
            ascii_fold save_raises bcrypt_hash bcrypt_verify.
Definition serve_all :=
  @serve_all Q string leb isnan times100 round2 decode_image model_predict
             ascii_fold save_raises bcrypt_hash bcrypt_verify.

Definition run_diagnoses :=
  @run_diagnoses Q string leb isnan times100 round2 decode_image
                 model_predict ascii_fold save_raises.

End Demo.

(** * Properties *)

(** ** Examples *)

Example allowed_file_exe : allowed_file "leaf.exe" = false.
Proof. reflexivity. Qed.

Example allowed_file_JPG : allowed_file "leaf.JPG" = true.
Proof. reflexivity. Qed.

Example allowed_file_nodot : allowed_file "png" = false.
Proof. reflexivity. Qed.

Example split_ws_demo : Py.split_ws "  a b   cd " = ["a"; "b"; "cd"].
Proof. reflexivity. Qed.

Example strip_demo : Py.strip "  alice  " = "alice".
Proof. reflexivity. Qed.

Example UPLOAD_FOLDER_value : UPLOAD_FOLDER = "static/uploads".
Proof. reflexivity. Qed.

Example raw_name_escapes :
  resolve (os_path_join UPLOAD_FOLDER "../../app.py") = (false, ["app.py"]).
Proof. reflexivity. Qed.

Example absolute_name_escapes :
  resolve (os_path_join UPLOAD_FOLDER "/etc/leaf.png")
  = (true, ["etc"; "leaf.png"]).
Proof. reflexivity. Qed.

Example secure_filename_traversal :
  secure_filename (fun s => s) "../../etc/leaf.png" = "etc_leaf.png".
Proof. reflexivity. Qed.

Example secure_filename_blanks :
  secure_filename (fun s => s) " my  leaf (1).JPG" = "my_leaf_1.JPG".
Proof. reflexivity. Qed.

(** ** numpy: [np.argmax] points at the value [np.max] returns *)

Section NumpyFacts.
Context {F : Type}.
Variable leb : F -> F -> bool.
Variable isnan : F -> bool.

Local Abbreviation np_maximum := (np_maximum leb isnan).
Local Abbreviation argmax_loop := (argmax_loop leb isnan).
Local Abbreviation np_argmax := (np_argmax leb isnan).
Local Abbreviation np_max := (np_max leb isnan).

Lemma fold_maximum_nan (rest : list F) (x : F) :
  isnan x = true -> fold_left np_maximum rest x = x.
Proof.
  intros Hx. induction rest as [|y rest IH]; [reflexivity|].
  simpl. unfold np_maximum at 2. rewrite Hx, orb_true_r. exact IH.
Qed.

Lemma argmax_loop_max (rest pre : list F) (mp : F) (mi : nat) :
  pre !! mi = Some mp -> isnan mp = false ->
  (pre ++ rest) !! argmax_loop mp mi (length pre) rest
  = Some (fold_left np_maximum rest mp).
Proof.
  revert pre mp mi.
  induction rest as [|x rest IH]; intros pre mp mi Hmi Hnan; simpl.
  - rewrite app_nil_r. exact Hmi.
  - unfold np_maximum at 2. rewrite Hnan, orb_false_r.
    destruct (leb x mp) eqn:Hle; simpl.
    + replace (pre ++ x :: rest) with ((pre ++ [x]) ++ rest)
        by (rewrite <- app_assoc; reflexivity).
      replace (S (length pre)) with (length (pre ++ [x]))
        by (rewrite length_app; simpl; lia).
      apply IH; [|exact Hnan].
      apply lookup_app_l_Some. exact Hmi.
    + destruct (isnan x) eqn:Hx.
      * rewrite fold_maximum_nan by exact Hx.
        rewrite lookup_app_r by lia.
        replace (length pre - length pre) with 0 by lia. reflexivity.
      * replace (pre ++ x :: rest) with ((pre ++ [x]) ++ rest)
          by (rewrite <- app_assoc; reflexivity).
        replace (S (length pre)) with (length (pre ++ [x]))
          by (rewrite length_app; simpl; lia).
        apply IH; [|exact Hx].
        replace (length pre) with (length pre + 0) by lia.
        rewrite lookup_app_r by lia.
        replace (length pre + 0 - length pre) with 0 by lia. reflexivity.
Qed.

(** The element at the index [np.argmax] returns is the value [np.max]
    returns. *)
Lemma np_argmax_np_max (a : list F) (i : nat) :
  np_argmax a = Ok i -> exists m, np_max a = Ok m /\ a !! i = Some m.
Proof.
  destruct a as [|x rest]; simpl; [discriminate|].
  destruct (isnan x) eqn:Hx; intros [= <-].
  - exists x. split; [|reflexivity].
    f_equal. apply fold_maximum_nan. exact Hx.
  - eexists. split; [reflexivity|].
    apply (argmax_loop_max rest [x] x 0); [reflexivity|exact Hx].
Qed.

Lemma np_argmax_Some (a : list F) : a <> [] -> exists i, np_argmax a = Ok i.
Proof.
  destruct a as [|x rest]; [congruence|]. intros _. simpl.
  destruct (isnan x); eauto.
Qed.

(** On an array without NaN and with [leb] a total preorder there, the
    reduction is an upper bound of every entry. *)
Section Ordered.
Hypothesis leb_total : forall a b,
  isnan a = false -> isnan b = false -> leb a b = true \/ leb b a = true.
Hypothesis leb_trans : forall a b c,
  leb a b = true -> leb b c = true -> leb a c = true.

Lemma np_maximum_nonan (a b : F) :
  isnan a = false -> isnan b = false -> isnan (np_maximum a b) = false.
Proof. intros Ha Hb. unfold np_maximum. destruct (_ || _); assumption. Qed.

Lemma fold_maximum_upper (rest : list F) (m : F) :
  isnan m = false -> Forall (fun x => isnan x = false) rest ->
  leb m (fold_left np_maximum rest m) = true /\
  Forall (fun x => leb x (fold_left np_maximum rest m) = true) rest.
Proof.
  revert m. induction rest as [|y rest IH]; intros m Hm Hrest; simpl.
  - split; [|constructor].
    destruct (leb_total m m Hm Hm); assumption.
  - inversion Hrest as [|? ? Hy Hrest']; subst.
    destruct (IH (np_maximum m y) (np_maximum_nonan m y Hm Hy) Hrest')
      as [Hle Hall].
    assert (Hmy : leb m (np_maximum m y) = true /\
                  leb y (np_maximum m y) = true).
    { unfold np_maximum. rewrite Hm, orb_false_r.
      destruct (leb y m) eqn:Hym.
      - split; [|exact Hym]. destruct (leb_total m m Hm Hm); assumption.
      - destruct (leb_total y m Hy Hm) as [H|H]; [congruence|].
        split; [exact H|]. destruct (leb_total y y Hy Hy); assumption. }
    destruct Hmy as [H1 H2]. split; [eauto|].
    constructor; [eauto|exact Hall].
Qed.

Lemma np_max_upper (a : list F) (m : F) :
  Forall (fun x => isnan x = false) a -> np_max a = Ok m ->
  Forall (fun x => leb x m = true) a.
Proof.
  destruct a as [|x rest]; simpl; [discriminate|].
  intros Ha [= <-]. inversion Ha as [|? ? Hx Hrest]; subst.
  destruct (fold_maximum_upper rest x Hx Hrest) as [H1 H2].
  constructor; assumption.
Qed.
End Ordered.
End NumpyFacts.

(** ** String lemmas *)

Lemma contains_rsplit1_None (c : ascii) (s : string) :
  Py.rsplit1 c s = None <-> Py.contains c s = false.
Proof.
  induction s as [|d s IH]; simpl; [tauto|].
  destruct (Py.rsplit1 c s) as [[a b]|].
  - destruct (Ascii.eqb d c); split; try discriminate.
    intros H. apply IH in H. discriminate.
  - destruct (Ascii.eqb d c); split; try discriminate; try reflexivity.
    intros _. apply IH. reflexivity.
Qed.

Lemma rsplit1_Some (c : ascii) (s a b : string) :
  Py.rsplit1 c s = Some (a, b) <->
  s = a +:+ String c b /\ Py.contains c b = false.
Proof.
  split.
  - revert a. induction s as [|d s IH]; intros a; simpl; [discriminate|].
    destruct (Py.rsplit1 c s) as [[a' b']|] eqn:Hr.
    + intros [= <- <-]. destruct (IH a' eq_refl) as [-> Hb].
      split; [reflexivity|exact Hb].
    + destruct (Ascii.eqb d c) eqn:Hd; [|discriminate].
      intros [= <- <-]. apply Ascii.eqb_eq in Hd. subst d.
      split; [reflexivity|]. apply contains_rsplit1_None. exact Hr.
  - intros [-> Hb]. induction a as [|d a IH]; simpl.
    + apply contains_rsplit1_None in Hb. rewrite Hb.
      rewrite Ascii.eqb_refl. reflexivity.
    + rewrite IH. reflexivity.
Qed.

Lemma in_strings_In (s : string) (l : list string) :
  in_strings s l = true <-> In s l.
Proof.
  unfold in_strings. rewrite existsb_exists. split.
  - intros [x [Hx Heq]]. apply String.eqb_eq in Heq. subst. exact Hx.
  - intros H. exists s. split; [exact H|apply String.eqb_refl].
Qed.

(** [allowed_file] holds exactly of the names [stem.ext] whose [ext] has no
    dot and is, in lower case, an allowed extension. *)
Lemma allowed_file_iff (name : string) :
  allowed_file name = true <->
  exists stem ext, name = stem +:+ "." +:+ ext /\
                   Py.contains "." ext = false /\
                   In (Py.lower ext) ALLOWED_EXTENSIONS.
Proof.
  unfold allowed_file. split.
  - intros H. apply andb_prop in H as [_ H].
    destruct (Py.rsplit1 "." name) as [[stem ext]|] eqn:Hr; [|discriminate].
    apply rsplit1_Some in Hr as [-> Hext].
    exists stem, ext. repeat split; [exact Hext|].
    apply in_strings_In. exact H.
  - intros (stem & ext & -> & Hext & Hin).
    assert (Hr : Py.rsplit1 "." (stem +:+ "." +:+ ext) = Some (stem, ext)).
    { apply rsplit1_Some. split; [reflexivity|exact Hext]. }
    rewrite Hr. apply andb_true_intro. split.
    + destruct (Py.contains "." (stem +:+ "." +:+ ext)) eqn:Hc;
        [reflexivity|].
      apply contains_rsplit1_None in Hc. congruence.
    + apply in_strings_In. exact Hin.
Qed.

Lemma nonempty_eqb (s : string) :
  Py.nonempty s = negb (String.eqb s "").
Proof. destruct s; reflexivity. Qed.

(** ** C2: the upload test *)

(** C2, as stated, fails: an upload named [leaf.png] with empty content is
    rejected by the spec's rule and accepted by line 132, which never looks
    at the content. *)
Lemma C2_empty_content_accepted :
  ~ (forall f : FileStorage, upload_accepted (Some f) = false <-> spec_rejects f).
Proof.
  intros H.
  specialize (H {| filename := "leaf.png"; stream := "" |}).
  destruct H as [_ H].
  assert (Hacc : upload_accepted (Some {| filename := "leaf.png"; stream := "" |})
                 = true) by reflexivity.
  rewrite H in Hacc; [discriminate|].
  right; left. reflexivity.
Qed.

(** C2, amended: the test of line 132 accepts an upload exactly when a file
    is present and its name is [stem.ext] with [ext] free of dots and, in
    lower case, one of png, jpg, jpeg; the content plays no part. So
    [leaf.exe] and the empty name are rejected and [leaf.JPG] is accepted,
    whatever the content. *)
Theorem C2_upload_accepted_iff :
  (forall file : option FileStorage,
     upload_accepted file = true <->
     exists f stem ext,
       file = Some f /\ filename f = stem +:+ "." +:+ ext /\
       Py.contains "." ext = false /\
       In (Py.lower ext) ALLOWED_EXTENSIONS) /\
  (forall content,
     upload_accepted (Some {| filename := "leaf.exe"; stream := content |})
       = false /\
     upload_accepted (Some {| filename := "leaf.JPG"; stream := content |})
       = true /\
     upload_accepted (Some {| filename := ""; stream := content |}) = false).
Proof.
  split.
  - intros [f|]; simpl.
    + rewrite <- nonempty_eqb, andb_diag. split.
      * intros H. apply andb_prop in H as [_ H].
        apply allowed_file_iff in H as (stem & ext & H).
        exists f, stem, ext. split; [reflexivity|exact H].
      * intros (f' & stem & ext & [= <-] & Hname & Hext & Hin).
        assert (Ha : allowed_file (filename f) = true).
        { apply allowed_file_iff. exists stem, ext. auto. }
        rewrite Ha, andb_true_r. rewrite Hname.
        destruct stem; reflexivity.
    + split; [discriminate|]. intros (f & ? & ? & H & _). discriminate.
  - intros content. repeat split.
Qed.

(** ** C8: the storage name cannot leave the upload folder *)

Lemma all_chars_filter (p : ascii -> bool) (s : string) :
  Py.all_chars p (Py.filter_chars p s) = true.
Proof.
  induction s as [|c s IH]; simpl; [reflexivity|].
  destruct (p c) eqn:Hc; simpl; [rewrite Hc|]; exact IH.
Qed.

Lemma all_chars_lstrip (p q : ascii -> bool) (s : string) :
  Py.all_chars p s = true -> Py.all_chars p (Py.lstrip_with q s) = true.
Proof.
  induction s as [|c s IH]; simpl; [reflexivity|].
  intros H. destruct (q c); [|exact H].
  apply andb_prop in H as [_ H]. auto.
Qed.

Lemma all_chars_rstrip (p q : ascii -> bool) (s : string) :
  Py.all_chars p s = true -> Py.all_chars p (Py.rstrip_with q s) = true.
Proof.
  induction s as [|c s IH]; simpl; [reflexivity|].
  intros H. apply andb_prop in H as [Hc H]. specialize (IH H).
  destruct (Py.rstrip_with q s).
  - destruct (q c); simpl; [reflexivity|]. rewrite Hc. reflexivity.
  - simpl in *. rewrite Hc. exact IH.
Qed.

(** What [strip] leaves is empty or starts with a character it keeps. *)
Lemma strip_with_head (q : ascii -> bool) (s : string) :
  match Py.strip_with q s with
  | EmptyString => True
  | String c _ => q c = false
  end.
Proof.
  unfold Py.strip_with.
  induction s as [|c s IH]; simpl; [exact I|].
  destruct (q c) eqn:Hc; [exact IH|].
  simpl. destruct (Py.rstrip_with q s); [rewrite Hc|]; exact Hc.
Qed.

Lemma all_chars_not_contains (p : ascii -> bool) (c : ascii) (s : string) :
  p c = false -> Py.all_chars p s = true -> Py.contains c s = false.
Proof.
  intros Hc. induction s as [|d s IH]; simpl; [reflexivity|].
  intros H. apply andb_prop in H as [Hd H].
  destruct (Ascii.eqb d c) eqn:Hdc; [|auto].
  apply Ascii.eqb_eq in Hdc. congruence.
Qed.

Lemma split_nonempty (c : ascii) (s : string) : Py.split c s <> [].
Proof.
  destruct s as [|d s]; simpl; [discriminate|].
  destruct (Ascii.eqb d c); [discriminate|].
  destruct (Py.split c s); discriminate.
Qed.

Lemma split_no_sep (c : ascii) (s : string) :
  Py.contains c s = false -> Py.split c s = [s].
Proof.
  induction s as [|d s IH]; simpl; [reflexivity|].
  destruct (Ascii.eqb d c); [discriminate|].
  intros H. rewrite (IH H). reflexivity.
Qed.

Lemma split_app (c : ascii) (a b : string) :
  Py.split c (a +:+ String c b) = Py.split c a ++ Py.split c b.
Proof.
  induction a as [|d a IH]; simpl.
  - rewrite Ascii.eqb_refl. reflexivity.
  - destruct (Ascii.eqb d c); rewrite IH; [reflexivity|].
    pose proof (split_nonempty c a) as Hne.
    destruct (Py.split c a); [congruence|reflexivity].
Qed.

(** Every character of a storage name is in [[A-Za-z0-9_.-]], and the name
    does not begin with a dot or an underscore. *)
Lemma secure_filename_shape (ascii_fold : string -> string) (name : string) :
  Py.all_chars safe_char (secure_filename ascii_fold name) = true /\
  match secure_filename ascii_fold name with
  | EmptyString => True
  | String c _ => dot_or_underscore c = false
  end.
Proof.
  unfold secure_filename. split; [|apply strip_with_head].
  unfold Py.strip_with.
  apply all_chars_rstrip, all_chars_lstrip, all_chars_filter.
Qed.

(** C8 (the storage name is werkzeug's [secure_filename], modelled above):
    for every filename, accepted or not, with separators and [..] segments
    or not, the storage name holds only characters of [[A-Za-z0-9_.-]], no
    separator, and is neither [.] nor [..]; the path [os.path.join] forms
    from [UPLOAD_FOLDER] and it resolves to the upload folder itself (empty
    name) or to that one entry directly in it, never outside. *)
Theorem C8_storage_path_inside_upload_area :
  forall (ascii_fold : string -> string) (name : string),
    let stored := secure_filename ascii_fold name in
    Py.all_chars safe_char stored = true /\
    Py.contains "/" stored = false /\
    stored <> "." /\ stored <> ".." /\
    resolve (os_path_join UPLOAD_FOLDER stored)
    = (false, "static" :: "uploads"
              :: (if Py.nonempty stored then [stored] else [])) /\
    inside_upload_area (os_path_join UPLOAD_FOLDER stored).
Proof.
  intros ascii_fold name stored.
  destruct (secure_filename_shape ascii_fold name) as [Hsafe Hhead].
  fold stored in Hsafe, Hhead.
  assert (Hsep : Py.contains "/" stored = false).
  { apply (all_chars_not_contains safe_char); [reflexivity|exact Hsafe]. }
  assert (Hres : resolve (os_path_join UPLOAD_FOLDER stored)
                 = (false, "static" :: "uploads"
                           :: (if Py.nonempty stored then [stored] else []))).
  { change UPLOAD_FOLDER with "static/uploads".
    destruct stored as [|c r]; [reflexivity|].
    apply orb_false_elim in Hhead as [Hdot _].
    assert (Hc : Ascii.eqb c "/" = false).
    { simpl in Hsep. destruct (Ascii.eqb c "/"); [discriminate|reflexivity]. }
    unfold os_path_join. cbn [Py.startswith_char]. rewrite Hc.
    change (negb (Py.nonempty "static/uploads")
            || Py.endswith_char "/" "static/uploads") with false.
    cbv iota.
    unfold resolve.
    change (Py.startswith_char "/" ("static/uploads" +:+ "/" +:+ String c r))
      with false.
    change ("static/uploads" +:+ "/" +:+ String c r)
      with ("static/uploads" +:+ String "/" (String c r)).
    rewrite split_app, (split_no_sep "/" (String c r) Hsep).
    change (Py.split "/" "static/uploads") with ["static"; "uploads"].
    cbn [app fold_left Py.nonempty].
    change (norm_step false (norm_step false [] "static") "uploads")
      with ["static"; "uploads"].
    unfold norm_step. cbn [String.eqb]. rewrite Hdot. reflexivity. }
  repeat split.
  - exact Hsafe.
  - exact Hsep.
  - intros E. rewrite E in Hhead. discriminate.
  - intros E. rewrite E in Hhead. discriminate.
  - exact Hres.
  - eexists. exact Hres.
Qed.

(** ** The views, for every choice of collaborators *)

Section AppFacts.
Context {F Tensor : Type}.
Variable leb : F -> F -> bool.
Variable isnan : F -> bool.
Variable times100 : F -> F.
Variable round2 : F -> F.
Variable decode_image : string -> Result Tensor.
Variable model_predict : Tensor -> Result (list F).
Variable ascii_fold : string -> string.
Variable save_raises : string -> string -> option PyExc.
Variable bcrypt_hash : string -> string -> Result string.
Variable bcrypt_verify : string -> string -> Result bool.

Local Abbreviation classify_and_record :=
  (classify_and_record leb isnan times100 round2 model_predict).
Local Abbreviation diagnose :=
  (diagnose leb isnan times100 round2 decode_image model_predict ascii_fold
            save_raises).
Local Abbreviation run_diagnoses :=
  (run_diagnoses leb isnan times100 round2 decode_image model_predict
                 ascii_fold save_raises).
Local Abbreviation call_view :=
  (call_view leb isnan times100 round2 decode_image model_predict ascii_fold
             save_raises
            bcrypt_hash bcrypt_verify).
Local Abbreviation signup := (@signup F bcrypt_hash).
Local Abbreviation login := (@login F bcrypt_verify).
Local Abbreviation stored_name := (secure_filename ascii_fold).
Local Abbreviation successful_append := (@successful_append F ascii_fold).
Local Abbreviation new_record := (new_record times100 round2).

(** The [try] block ends normally only along one path. *)
Lemma classify_and_record_TryOk (img : Tensor) (name : string)
    (s s' : gmap string (SVal F)) (p : string) (c : PyNum F) (url : string) :
  classify_and_record img name s = TryOk p c url s' ->
  exists preds i m h,
    model_predict img = Ok preds /\
    np_argmax leb isnan preds = Ok i /\
    class_names !! i = Some p /\
    np_max leb isnan preds = Ok m /\
    c = PyFloat (round2 (times100 m)) /\
    url = "/static/uploads/" +:+ name /\
    session_history s = SList h /\
    s' = <["history" := SList (h ++ [new_record name p m])]> s.
Proof.
  unfold classify_and_record, new_record.
  destruct (model_predict img) as [preds|] eqn:Hp; [|discriminate].
  destruct (np_argmax leb isnan preds) as [i|] eqn:Hi; [|discriminate].
  destruct (class_names !! i) as [q|] eqn:Hq; [|discriminate].
  destruct (np_max leb isnan preds) as [m|] eqn:Hm; [|discriminate].
  destruct (session_history s) as [|h] eqn:Hh; [discriminate|].
  intros [= <- <- <- <-]. exists preds, i, m, h. repeat split; assumption.
Qed.

Lemma class_names_lookup (i : nat) (p : string) :
  class_names !! i = Some p -> In p class_names /\ p <> "Error".
Proof.
  intros H.
  do 5 (destruct i as [|i]; [injection H as <-; split; [simpl; tauto|discriminate]|]).
  discriminate.
Qed.

(** Every way [diagnose] can end: without touching the session (gate, no
    upload, escaped exception, sentinel), or with one record appended. *)
Lemma diagnose_cases (req : Request) (s s' : gmap string (SVal F))
    (w w' : World) (o : Outcome F) :
  diagnose req s w = (o, s', w') ->
  (s' = s /\
   ((s !! "user" = None /\ o = Returned (Redirect "login") /\ w' = w) \/
    (o = Returned (RenderDiagnose None None None) /\ w' = w) \/
    (exists e, o = Raised e) \/
    (exists url, o = Returned (RenderDiagnose (Some "Error")
                                (Some (PyInt 0)) url)))) \/
  (exists f img p m h,
     is_Some (s !! "user") /\
     files req !! "leaf_image" = Some f /\
     upload_accepted (Some f) = true /\
     classify_and_record img (stored_name (filename f)) s
     = TryOk p (PyFloat (round2 (times100 m)))
             ("/static/uploads/" +:+ stored_name (filename f)) s' /\
     In p class_names /\ p <> "Error" /\
     session_history s = SList h /\
     s' = <["history" :=
              SList (h ++ [new_record (stored_name (filename f)) p m])]> s /\
     o = Returned (RenderDiagnose (Some p)
                     (Some (PyFloat (round2 (times100 m))))
                     (Some ("/static/uploads/" +:+ stored_name (filename f))))).
Proof.
  unfold diagnose, require_login, render_nothing.
  destruct (s !! "user") as [v|] eqn:Hu.
  2:{ intros [= <- <- <-]. left. split; [reflexivity|]. left. auto. }
  destruct (String.eqb (method req) "POST").
  2:{ intros [= <- <- <-]. left. split; [reflexivity|]. right; left. auto. }
  destruct (files req !! "leaf_image") as [f|] eqn:Hf.
  2:{ simpl. intros [= <- <- <-]. left. split; [reflexivity|].
      right; left. auto. }
  destruct (upload_accepted (Some f)) eqn:Hacc.
  2:{ intros [= <- <- <-]. left. split; [reflexivity|]. right; left. auto. }
  destruct (save_raises _ _) as [e|].
  { intros [= <- <- <-]. left. split; [reflexivity|].
    right; right; left. eauto. }
  destruct (prepare_image _ _ _) as [img|e].
  2:{ intros [= <- <- <-]. left. split; [reflexivity|].
      right; right; left. eauto. }
  destruct (classify_and_record img (stored_name (filename f)) s)
    as [p c url s1|e url] eqn:Hc.
  2:{ intros [= <- <- <-]. left. split; [reflexivity|].
      right; right; right. eauto. }
  intros [= <- <- <-]. right.
  pose proof Hc as Hc'.
  apply classify_and_record_TryOk in Hc'
    as (preds & i & m & h & _ & _ & Hq & _ & -> & -> & Hh & Hs).
  apply class_names_lookup in Hq as [Hin Hne].
  exists f, img, p, m, h. repeat split; eauto.
Qed.

(** C10: when [diagnose] answers with the sentinel prediction ["Error"],
    the confidence is the integer 0 and the session is the one the request
    came with: the history as it was, no record appended, the same logged-in
    user. *)
Theorem C10_sentinel_leaves_session (req : Request)
    (s s' : gmap string (SVal F)) (w w' : World)
    (c : option (PyNum F)) (url : option string) :
  diagnose req s w
  = (Returned (RenderDiagnose (Some "Error") c url), s', w') ->
  s' = s /\
  session_history s' = session_history s /\
  s' !! "user" = s !! "user" /\
  c = Some (PyInt 0).
Proof.
  intros H. apply diagnose_cases in H as [[-> H]|H].
  - repeat split.
    destruct H as [(_ & [=] & _)|[([=] & _)|[[e [=]]|[url' [= -> _]]]]].
    reflexivity.
  - destruct H as (f & img & p & m & h & _ & _ & _ & _ & _ & Hne & _ & _ & [= Hp _ _]).
    congruence.
Qed.

(** A failure of [model.predict] on a stored upload is caught: the
    response is the sentinel and the session is untouched. *)
Lemma diagnose_predict_error (req : Request) (s : gmap string (SVal F))
    (w : World) (f : FileStorage) (v : SVal F) (img : Tensor) (e : PyExc) :
  s !! "user" = Some v -> method req = "POST" ->
  files req !! "leaf_image" = Some f -> upload_accepted (Some f) = true ->
  save_raises (os_path_join UPLOAD_FOLDER (stored_name (filename f)))
              (stream f) = None ->
  decode_image (stream f) = Ok img -> model_predict img = Raise e ->
  exists w', diagnose req s w
             = (Returned (RenderDiagnose (Some "Error") (Some (PyInt 0)) None),
                s, w').
Proof.
  intros Hu Hm Hf Hacc Hsave Hd He.
  unfold diagnose, require_login, prepare_image, classify_and_record.
  rewrite Hu, Hm, Hf, Hacc. cbn [String.eqb Ascii.eqb Bool.eqb].
  rewrite Hsave. cbn [uploads].
  rewrite lookup_insert_eq, Hd, He. eauto.
Qed.

(** C1, where the code departs from it: an error raised while the saved
    file is decoded ([prepare_image], line 137, before the [try]) is not
    caught; once the upload is stored, it leaves [diagnose] as an exception
    and no sentinel is returned. *)
Theorem C1_preprocessing_error_escapes (req : Request)
    (s : gmap string (SVal F)) (w : World) (f : FileStorage) (v : SVal F)
    (e : PyExc) :
  s !! "user" = Some v -> method req = "POST" ->
  files req !! "leaf_image" = Some f -> upload_accepted (Some f) = true ->
  save_raises (os_path_join UPLOAD_FOLDER (stored_name (filename f)))
              (stream f) = None ->
  decode_image (stream f) = Raise e ->
  exists w', diagnose req s w = (Raised e, s, w').
Proof.
  intros Hu Hm Hf Hacc Hsave Hd.
  unfold diagnose, require_login, prepare_image.
  rewrite Hu, Hm, Hf, Hacc. cbn [String.eqb Ascii.eqb Bool.eqb].
  rewrite Hsave. cbn [uploads].
  rewrite lookup_insert_eq, Hd. eauto.
Qed.

(** C9: the view of the index, of [/diagnose], of [/info/<disease>], of
    [/history] and of [/clear_history], called for a request in a session
    without a logged-in user, answers with a redirect to the login view,
    and neither the session nor the table nor the upload folder changes. *)
Theorem C9_protected_routes_redirect (salt : string) (r : Route)
    (req : Request) (s : gmap string (SVal F)) (w : World) :
  session_protected r = true -> s !! "user" = None ->
  call_view salt r req s w = (Returned (Redirect "login"), s, w).
Proof.
  intros Hr Hu.
  destruct r; try discriminate Hr; simpl;
    unfold index, diagnose, info, history, clear_history, require_login;
    rewrite Hu; reflexivity.
Qed.


(** A login attempt that is not answered by the redirect to the index
    leaves session, table and upload folder as they were. *)
Lemma login_failure_keeps_state (req : Request) (s : gmap string (SVal F))
    (w : World) :
  (login req s w).1.1 <> Returned (Redirect "index") ->
  (login req s w).1.2 = s /\ (login req s w).2 = w.
Proof.
  unfold login.
  destruct (String.eqb (method req) "POST"); [|auto].
  destruct (form req !! "username") as [u|]; [|auto].
  destruct (form req !! "password") as [p|]; [|auto].
  destruct (find_user (Py.strip u) (users w)) as [row|]; [|auto].
  destruct (bcrypt_verify (Py.strip p) (row_password row)) as [[|]|e];
    [|auto|auto].
  simpl. congruence.
Qed.

(** [setdefault] on line 106: a login in a session that already holds a
    history keeps it. *)
Lemma login_keeps_existing_history (req : Request)
    (s s' : gmap string (SVal F)) (w w' : World) (o : Outcome F)
    (v : SVal F) :
  login req s w = (o, s', w') -> s !! "history" = Some v ->
  s' !! "history" = Some v.
Proof.
  unfold login. intros H Hv.
  destruct (String.eqb (method req) "POST"); [|congruence].
  destruct (form req !! "username") as [u|]; [|congruence].
  destruct (form req !! "password") as [p|]; [|congruence].
  destruct (find_user (Py.strip u) (users w)) as [row|]; [|congruence].
  destruct (bcrypt_verify (Py.strip p) (row_password row)) as [[|]|e];
    [|congruence|congruence].
  rewrite lookup_insert_ne in H by discriminate. rewrite Hv in H.
  injection H as _ <- _. rewrite lookup_insert_ne by discriminate. exact Hv.
Qed.

Lemma find_user_name (name : string) (rows : list User) (row : User) :
  find_user name rows = Some row -> In row rows /\ row_username row = name.
Proof.
  unfold find_user. intros H. apply find_some in H as [Hin Heq].
  apply String.eqb_eq in Heq. auto.
Qed.

Lemma nonempty_true (s : string) : s <> "" -> Py.nonempty s = true.
Proof. destruct s; [congruence|reflexivity]. Qed.

(** C5, amended: a signup whose username, trimmed, is already in the table
    leaves table, upload folder and session as they were (no row altered,
    none inserted); when the request is a POST with a password that is not
    blank and that [bcrypt.hash] hashes, the view returns, and its
    response is the signup page with "Username already exists". *)
Theorem C5_signup_existing_username (salt : string) (req : Request)
    (s : gmap string (SVal F)) (w : World) (u : string) (row : User) :
  usernames_nonempty (users w) ->
  form req !! "username" = Some u ->
  find_user (Py.strip u) (users w) = Some row ->
  (signup salt req s w).1.2 = s /\ (signup salt req s w).2 = w /\
  (forall p h, method req = "POST" -> form req !! "password" = Some p ->
               Py.strip p <> "" ->
               bcrypt_hash salt (Py.strip p) = Ok h ->
               signup salt req s w
               = (Returned (RenderSignup (Some "Username already exists")),
                  s, w)).
Proof.
  intros Hwf Hu Hrow.
  assert (Hname : Py.nonempty (Py.strip u) = true).
  { apply find_user_name in Hrow as [Hin Heq].
    unfold usernames_nonempty in Hwf. rewrite Forall_forall in Hwf.
    apply nonempty_true. rewrite <- Heq. apply Hwf.
    apply list_elem_of_In. exact Hin. }
  assert (Hstate : (signup salt req s w).1.2 = s /\
                   (signup salt req s w).2 = w).
  { unfold signup, insert_user. rewrite Hu.
    destruct (String.eqb (method req) "POST"); [|auto].
    destruct (form req !! "password"); [|auto].
    destruct (_ || _); [auto|].
    destruct (bcrypt_hash salt _); [|auto].
    rewrite Hrow. auto. }
  destruct Hstate as [Hs Hw]. split; [exact Hs|]. split; [exact Hw|].
  intros p h Hm Hp Hne Hh.
  unfold signup, insert_user. rewrite Hm, Hu, Hp, Hname.
  rewrite (nonempty_true _ Hne). simpl. rewrite Hh, Hrow. reflexivity.
Qed.

(** [signup] keeps usernames non-empty. *)
Lemma signup_usernames_nonempty (salt : string) (req : Request)
    (s : gmap string (SVal F)) (w : World) :
  usernames_nonempty (users w) ->
  usernames_nonempty (users (signup salt req s w).2).
Proof.
  intros Hwf. unfold signup, insert_user.
  destruct (String.eqb (method req) "POST"); [|exact Hwf].
  destruct (form req !! "username") as [u|]; [|exact Hwf].
  destruct (form req !! "password") as [p|]; [|exact Hwf].
  destruct (Py.nonempty (Py.strip u)) eqn:Hu; [|exact Hwf].
  destruct (negb (Py.nonempty (Py.strip p))); [exact Hwf|]. simpl.
  destruct (bcrypt_hash salt (Py.strip p)) as [h|e]; [|exact Hwf].
  destruct (find_user (Py.strip u) (users w)); [exact Hwf|]. simpl.
  unfold usernames_nonempty. apply Forall_app. split; [exact Hwf|].
  constructor; [|constructor]. simpl. intros E. rewrite E in Hu. discriminate.
Qed.

(** A login that succeeds on an empty session yields the session with the
    user and an empty history, and nothing else. *)
Lemma login_fresh (req : Request) (s0 : gmap string (SVal F))
    (w0 w1 : World) :
  login req ∅ w0 = (Returned (Redirect "index"), s0, w1) ->
  exists name,
    s0 = <["history" := SList []]> (<["user" := SStr name]> ∅) /\ w1 = w0.
Proof.
  unfold login.
  destruct (String.eqb (method req) "POST"); [|discriminate].
  destruct (form req !! "username") as [u|]; [|discriminate].
  destruct (form req !! "password") as [p|]; [|discriminate].
  destruct (find_user (Py.strip u) (users w0)) as [row|]; [|discriminate].
  destruct (bcrypt_verify (Py.strip p) (row_password row)) as [[|]|e];
    [|discriminate|discriminate].
  rewrite lookup_insert_ne by discriminate. rewrite lookup_empty.
  intros [= <- <-]. eauto.
Qed.

Lemma successful_append_Some (req : Request) (o : Outcome F)
    (r : DiagnosisRecord F) :
  successful_append req o = Some r ->
  exists f p c url,
    files req !! "leaf_image" = Some f /\
    o = Returned (RenderDiagnose (Some p) (Some (PyFloat c)) (Some url)) /\
    r = {| rec_filename := stored_name (filename f); rec_prediction := p;
           rec_confidence := PyFloat c; rec_image_url := url |}.
Proof.
  unfold successful_append.
  destruct (files req !! "leaf_image") as [f|]; [|discriminate].
  destruct o as [[| | | |[p|] [[c|z]|] [url|]| | | | |]|]; try discriminate.
  intros [= <-]. exists f, p, c, url. auto.
Qed.

(** One request that appended: the session afterwards is the session
    before with that record added at the end of the history. *)
Lemma diagnose_appends (req : Request) (s s1 : gmap string (SVal F))
    (w w1 : World) (o : Outcome F) (r : DiagnosisRecord F)
    (h : list (DiagnosisRecord F)) :
  diagnose req s w = (o, s1, w1) -> successful_append req o = Some r ->
  session_history s = SList h ->
  session_history s1 = SList (h ++ [r]) /\ s1 !! "user" = s !! "user".
Proof.
  intros Hd Hr Hh.
  apply successful_append_Some in Hr
    as (f & p & c & url & Hf & -> & ->).
  apply diagnose_cases in Hd as [[_ Hd]|Hd].
  - destruct Hd as [(_ & [=] & _)|[([=] & _)|[[e [=]]|[url' [=]]]]].
  - destruct Hd as (f' & img & p' & m & h' & _ & Hf' & _ & _ & _ & _
                    & Hh' & -> & [= -> -> ->]).
    rewrite Hf in Hf'. injection Hf' as <-.
    rewrite Hh in Hh'. injection Hh' as <-.
    split.
    + unfold session_history. rewrite lookup_insert_eq. reflexivity.
    + rewrite lookup_insert_ne by discriminate. reflexivity.
Qed.

Lemma run_diagnoses_history (reqs : list Request) :
  forall (s sN : gmap string (SVal F)) (w wN : World)
         (outs : list (Outcome F)) (recs h : list (DiagnosisRecord F)),
    session_history s = SList h ->
    run_diagnoses reqs s w = (outs, sN, wN) ->
    zip_with successful_append reqs outs = map Some recs ->
    session_history sN = SList (h ++ recs) /\
    sN !! "user" = s !! "user" /\
    length recs = length reqs.
Proof.
  induction reqs as [|req reqs IH]; intros s sN w wN outs recs h Hh Hrun Hz.
  - simpl in Hrun. injection Hrun as <- <- <-.
    destruct recs; [|discriminate]. rewrite app_nil_r. auto.
  - simpl in Hrun.
    destruct (diagnose req s w) as [[o s1] w1] eqn:Hd.
    destruct (run_diagnoses reqs s1 w1) as [[os s2] w2] eqn:Hrest.
    injection Hrun as <- <- <-.
    destruct recs as [|r recs]; [discriminate|].
    simpl in Hz. injection Hz as Hr Hz.
    destruct (diagnose_appends _ _ _ _ _ _ _ _ Hd Hr Hh) as [Hh1 Hu1].
    destruct (IH _ _ _ _ _ _ _ Hh1 Hrest Hz) as (HhN & HuN & Hlen).
    rewrite <- app_assoc in HhN. simpl in HhN.
    repeat split; [exact HhN|congruence|simpl; congruence].
Qed.

(** C3: in the session a successful login creates from an empty one, after
    [N] upload requests that each appended a record, the history is exactly
    those [N] records in the order of the requests; [clear_history] then
    leaves an empty history (the history page shows none) and the same
    logged-in user. *)
Theorem C3_history_in_call_order (login_req : Request)
    (s0 sN : gmap string (SVal F)) (w0 w1 wN : World)
    (reqs : list Request) (outs : list (Outcome F))
    (recs : list (DiagnosisRecord F)) :
  login login_req ∅ w0 = (Returned (Redirect "index"), s0, w1) ->
  run_diagnoses reqs s0 w1 = (outs, sN, wN) ->
  zip_with successful_append reqs outs = map Some recs ->
  session_history sN = SList recs /\
  length recs = length reqs /\
  exists s',
    clear_history sN wN = (Returned (Redirect "history"), s', wN) /\
    session_history s' = SList [] /\
    history s' wN = (Returned (RenderHistory (SList [])), s', wN) /\
    s' !! "user" = s0 !! "user" /\
    is_Some (s' !! "user").
Proof.
  intros Hlogin Hrun Hz.
  apply login_fresh in Hlogin as (name & -> & ->).
  set (s0 := <["history" := SList []]> (<["user" := SStr name]> ∅)) in *.
  assert (Hh0 : session_history s0 = SList []) by reflexivity.
  assert (Hu0 : s0 !! "user" = Some (SStr name)) by reflexivity.
  destruct (run_diagnoses_history reqs _ _ _ _ _ _ _ Hh0 Hrun Hz)
    as (HhN & HuN & Hlen).
  simpl in HhN. rewrite Hu0 in HuN.
  repeat split; [exact HhN|exact Hlen|].
  exists (delete "history" sN).
  assert (Hu' : delete "history" sN !! "user" = Some (SStr name)).
  { rewrite lookup_delete_ne by discriminate. exact HuN. }
  assert (Hh' : session_history (delete "history" sN) = SList []).
  { unfold session_history. rewrite lookup_delete_eq. reflexivity. }
  repeat split.
  - unfold clear_history, require_login. rewrite HuN. reflexivity.
  - exact Hh'.
  - unfold history, require_login. rewrite Hu', Hh'. reflexivity.
  - rewrite Hu', Hu0. reflexivity.
  - rewrite Hu'. eauto.
Qed.

(** C4: when the [try] block ends normally, the label is the entry of
    [class_names] at the index [i] that [np.argmax] returns, the value [m]
    of the output vector there is what [np.max] returns, and no entry of a
    NaN-free vector exceeds it;
    the confidence returned, which is also the one recorded, is
    [round(m * 100, 2)]. The float operations and their order are those of
    the host; the order is assumed total and transitive off NaN. *)
Theorem C4_confidence_and_label (img : Tensor) (name : string)
    (s s' : gmap string (SVal F)) (p : string) (c : PyNum F) (url : string) :
  (forall a b, isnan a = false -> isnan b = false ->
               leb a b = true \/ leb b a = true) ->
  (forall a b c, leb a b = true -> leb b c = true -> leb a c = true) ->
  classify_and_record img name s = TryOk p c url s' ->
  exists preds i m,
    model_predict img = Ok preds /\
    np_argmax leb isnan preds = Ok i /\
    np_max leb isnan preds = Ok m /\
    preds !! i = Some m /\
    (Forall (fun x => isnan x = false) preds ->
     Forall (fun x => leb x m = true) preds) /\
    class_names !! i = Some p /\
    In p class_names /\
    c = PyFloat (round2 (times100 m)) /\
    exists h,
      session_history s'
      = SList (h ++ [{| rec_filename := name; rec_prediction := p;
                        rec_confidence := c; rec_image_url := url |}]).
Proof.
  intros Htotal Htrans H.
  apply classify_and_record_TryOk in H
    as (preds & i & m & h & Hp & Hi & Hq & Hm & -> & -> & Hh & ->).
  exists preds, i, m.
  destruct (np_argmax_np_max leb isnan preds i Hi) as (m' & Hm' & Hnth).
  rewrite Hm in Hm'. injection Hm' as <-.
  repeat split; try assumption.
  - intros Hnan. exact (np_max_upper leb isnan Htotal Htrans preds m Hnan Hm).
  - apply (class_names_lookup i p Hq).
  - exists h. unfold session_history. rewrite lookup_insert_eq. reflexivity.
Qed.

End AppFacts.

(** ** Runs in the concrete environment *)

Lemma demo_leb_total (a b : Q) :
  Demo.isnan a = false -> Demo.isnan b = false ->
  Demo.leb a b = true \/ Demo.leb b a = true.
Proof.
  intros _ _. unfold Demo.leb. rewrite !Qle_bool_iff.
  destruct (Qlt_le_dec a b) as [H|H]; [left; apply Qlt_le_weak; exact H|].
  right. exact H.
Qed.

Lemma demo_leb_trans (a b c : Q) :
  Demo.leb a b = true -> Demo.leb b c = true -> Demo.leb a c = true.
Proof. unfold Demo.leb. rewrite !Qle_bool_iff. apply Qle_trans. Qed.

Lemma C1_preprocessing_error_escapes_witness :
  exists w',
    Demo.diagnose (Demo.post_file "leaf.png" "") Demo.logged_in Demo.world0
    = (Raised (Exc "UnidentifiedImageError"), Demo.logged_in, w').
Proof.
  unfold Demo.diagnose.
  apply (C1_preprocessing_error_escapes Demo.leb Demo.isnan Demo.times100
           Demo.round2 Demo.decode_image Demo.model_predict Demo.ascii_fold
           Demo.save_raises
           (Demo.post_file "leaf.png" "") Demo.logged_in Demo.world0
           {| filename := "leaf.png"; stream := "" |} (SStr "alice"));
    reflexivity.
Defined.

Example predict_error_is_caught :
  (Demo.diagnose (Demo.post_file "leaf.png" "bad tensor") Demo.logged_in
                 Demo.world0).1
  = (Returned (RenderDiagnose (Some "Error") (Some (PyInt 0)) None),
     Demo.logged_in).
Proof. vm_compute. reflexivity. Qed.

Lemma C3_history_in_call_order_witness :
  let run := Demo.run_diagnoses Demo.two_uploads Demo.logged_in Demo.world0 in
  session_history run.1.2 = SList Demo.two_records /\
  length Demo.two_records = length Demo.two_uploads /\
  exists s',
    clear_history run.1.2 run.2 = (Returned (Redirect "history"), s', run.2) /\
    session_history s' = SList [] /\
    history s' run.2 = (Returned (RenderHistory (SList [])), s', run.2) /\
    s' !! "user" = Demo.logged_in !! "user" /\
    is_Some (s' !! "user").
Proof.
  intros run.
  apply (C3_history_in_call_order Demo.leb Demo.isnan Demo.times100
           Demo.round2 Demo.decode_image Demo.model_predict Demo.ascii_fold
           Demo.save_raises
           Demo.bcrypt_verify (Demo.post_form "alice" "pw123")
           Demo.logged_in run.1.2 Demo.world0 Demo.world0 run.2
           Demo.two_uploads run.1.1 Demo.two_records).
  - vm_compute. reflexivity.
  - vm_compute. reflexivity.
  - vm_compute. reflexivity.
Defined.

Lemma C4_confidence_and_label_witness :
  exists preds i m,
    Demo.model_predict "rust leaf" = Ok preds /\
    np_argmax Demo.leb Demo.isnan preds = Ok i /\
    np_max Demo.leb Demo.isnan preds = Ok m /\
    preds !! i = Some m /\
    (Forall (fun x => Demo.isnan x = false) preds ->
     Forall (fun x => Demo.leb x m = true) preds) /\
    class_names !! i = Some "Rust" /\
    In "Rust" class_names /\
    PyFloat 87%Q = PyFloat (Demo.round2 (Demo.times100 m)) /\
    exists h,
      session_history
        (<["history" :=
             SList [new_record Demo.times100 Demo.round2 "leaf.png" "Rust"
                               (87 # 100)%Q]]> Demo.logged_in)
      = SList (h ++ [{| rec_filename := "leaf.png"; rec_prediction := "Rust";
                        rec_confidence := PyFloat 87%Q;
                        rec_image_url := "/static/uploads/leaf.png" |}]).
Proof.
  apply (C4_confidence_and_label Demo.leb Demo.isnan Demo.times100
           Demo.round2 Demo.model_predict "rust leaf" "leaf.png"
           Demo.logged_in _ "Rust" (PyFloat 87%Q) "/static/uploads/leaf.png"
           demo_leb_total demo_leb_trans).
  vm_compute. reflexivity.
Defined.

(** C5, as stated, fails: a POST for the registered name [alice] with a
    blank password is answered with "Username and password required". *)
Lemma C5_blank_password_counterexample :
  ~ (forall (req : Request) (s : gmap string (SVal Q)) (w : World)
            (u p : string),
       method req = "POST" ->
       form req !! "username" = Some u -> form req !! "password" = Some p ->
       usernames_nonempty (users w) ->
       is_Some (find_user (Py.strip u) (users w)) ->
       exists s' w',
         Demo.signup "c2FsdA" req s w
         = (Returned (RenderSignup (Some "Username already exists")), s', w')).
Proof.
  intros H.
  destruct (H (Demo.post_form "alice" "  ") Demo.anonymous Demo.world0
              "alice" "  " eq_refl eq_refl eq_refl)
    as (s' & w' & E).
  - repeat constructor. discriminate.
  - exists Demo.alice. reflexivity.
  - assert (Hrun : Demo.signup "c2FsdA" (Demo.post_form "alice" "  ")
                     Demo.anonymous Demo.world0
                   = (Returned (RenderSignup
                                  (Some "Username and password required")),
                      Demo.anonymous, Demo.world0)) by reflexivity.
    rewrite Hrun in E. discriminate E.
Qed.


Lemma C5_signup_existing_username_witness :
  (Demo.signup "c2FsdA" (Demo.post_form " alice " "hunter2")
     Demo.anonymous Demo.world0).1.2 = Demo.anonymous /\
  (Demo.signup "c2FsdA" (Demo.post_form " alice " "hunter2")
     Demo.anonymous Demo.world0).2 = Demo.world0 /\
  (forall p h,
     method (Demo.post_form " alice " "hunter2") = "POST" ->
     form (Demo.post_form " alice " "hunter2") !! "password" = Some p ->
     Py.strip p <> "" ->
     Demo.bcrypt_hash "c2FsdA" (Py.strip p) = Ok h ->
     Demo.signup "c2FsdA" (Demo.post_form " alice " "hunter2")
       Demo.anonymous Demo.world0
     = (Returned (RenderSignup (Some "Username already exists")),
        Demo.anonymous, Demo.world0)).
Proof.
  apply (C5_signup_existing_username Demo.bcrypt_hash "c2FsdA"
           (Demo.post_form " alice " "hunter2") Demo.anonymous Demo.world0
           " alice " Demo.alice).
  - repeat constructor. discriminate.
  - reflexivity.
  - reflexivity.
Defined.


Lemma C9_protected_routes_redirect_witness :
  Demo.call_view "c2FsdA" RClearHistory Demo.get Demo.anonymous Demo.world0
  = (Returned (Redirect "login"), Demo.anonymous, Demo.world0) /\
  Demo.call_view "c2FsdA" RDiagnose (Demo.post_file "leaf.png" "rust leaf")
    Demo.anonymous Demo.world0
  = (Returned (Redirect "login"), Demo.anonymous, Demo.world0).
Proof.
  split.
  - apply (C9_protected_routes_redirect Demo.leb Demo.isnan Demo.times100
             Demo.round2 Demo.decode_image Demo.model_predict Demo.ascii_fold
           Demo.save_raises
             Demo.bcrypt_hash Demo.bcrypt_verify); reflexivity.
  - apply (C9_protected_routes_redirect Demo.leb Demo.isnan Demo.times100
             Demo.round2 Demo.decode_image Demo.model_predict Demo.ascii_fold
           Demo.save_raises
             Demo.bcrypt_hash Demo.bcrypt_verify); reflexivity.
Defined.

Lemma C10_sentinel_leaves_session_witness :
  let run := Demo.diagnose (Demo.post_file "leaf.png" "bad tensor")
               Demo.logged_in Demo.world0 in
  run.1.2 = Demo.logged_in /\
  session_history run.1.2 = session_history Demo.logged_in /\
  run.1.2 !! "user" = Demo.logged_in !! "user" /\
  Some (@PyInt Q 0) = Some (PyInt 0).
Proof.
  intros run.
  apply (C10_sentinel_leaves_session Demo.leb Demo.isnan Demo.times100
           Demo.round2 Demo.decode_image Demo.model_predict Demo.ascii_fold
           Demo.save_raises
           (Demo.post_file "leaf.png" "bad tensor") Demo.logged_in run.1.2
           Demo.world0 run.2 (Some (PyInt 0)) None).
  vm_compute. reflexivity.
Defined.

(** * Further properties of the code *)

(** ** [str.strip] *)

Lemma rstrip_with_idem (p : ascii -> bool) (s : string) :
  Py.rstrip_with p (Py.rstrip_with p s) = Py.rstrip_with p s.
Proof.
  induction s as [|c s IH]; simpl; [reflexivity|].
  destruct (Py.rstrip_with p s) as [|d r] eqn:Hr.
  - destruct (p c) eqn:Hc; simpl; [reflexivity|]. rewrite Hc. reflexivity.
  - simpl. simpl in IH. rewrite IH. reflexivity.
Qed.

Lemma lstrip_with_kept_head (p : ascii -> bool) (s : string) :
  match s with
  | EmptyString => True
  | String c _ => p c = false
  end ->
  Py.lstrip_with p s = s.
Proof. destruct s as [|c s]; simpl; [reflexivity|]. intros ->. reflexivity. Qed.

(** Stripping twice is stripping once. *)
Lemma strip_with_idem (p : ascii -> bool) (s : string) :
  Py.strip_with p (Py.strip_with p s) = Py.strip_with p s.
Proof.
  unfold Py.strip_with at 1.
  rewrite (lstrip_with_kept_head p (Py.strip_with p s) (strip_with_head p s)).
  unfold Py.strip_with. apply rstrip_with_idem.
Qed.

(** ** The [users] table: insert and lookup *)

Lemma find_user_app (name : string) (rows rows' : list User) :
  find_user name (rows ++ rows')
  = match find_user name rows with
    | Some r => Some r
    | None => find_user name rows'
    end.
Proof.
  unfold find_user. induction rows as [|r rows IH]; simpl; [reflexivity|].
  destruct (String.eqb (row_username r) name); [reflexivity|exact IH].
Qed.

Lemma find_user_None (name : string) (rows : list User) :
  find_user name rows = None <-> ~ In name (map row_username rows).
Proof.
  unfold find_user. induction rows as [|r rows IH]; simpl; [tauto|].
  destruct (String.eqb (row_username r) name) eqn:E.
  - apply String.eqb_eq in E. split; [discriminate|]. intros H. tauto.
  - apply String.eqb_neq in E. rewrite IH. tauto.
Qed.

Lemma next_id_above (rows : list User) :
  (0 < next_id rows)%Z /\
  Forall (fun r => (row_id r < next_id rows)%Z) rows.
Proof.
  unfold next_id. induction rows as [|r rows [IH0 IH]]; simpl.
  - split; [lia|constructor].
  - split; [lia|]. constructor; [lia|].
    eapply Forall_impl; [exact IH|]. simpl. intros x Hx. lia.
Qed.

(** X1: insert and lookup round trip (lines 83 and 101). An insert that
    goes through was for a name not yet in the table; afterwards the
    lookup of that name yields the new row, with the hash given, and the
    lookup of every other name yields what it did before. *)
Theorem insert_user_then_find (name pw : string) (rows rows' : list User) :
  insert_user name pw rows = Ok rows' ->
  ~ In name (map row_username rows) /\
  find_user name rows'
  = Some {| row_id := next_id rows; row_username := name;
            row_password := pw |} /\
  (forall other, other <> name ->
                 find_user other rows' = find_user other rows) /\
  rows' = rows ++ [{| row_id := next_id rows; row_username := name;
                      row_password := pw |}].
Proof.
  unfold insert_user.
  destruct (find_user name rows) as [r|] eqn:Hf; [discriminate|].
  intros [= <-]. split; [apply find_user_None; exact Hf|].
  split; [|split; [|reflexivity]].
  - rewrite find_user_app, Hf. unfold find_user. simpl.
    rewrite String.eqb_refl. reflexivity.
  - intros other Hne. rewrite find_user_app.
    destruct (find_user other rows); [reflexivity|].
    unfold find_user. simpl.
    destruct (String.eqb name other) eqn:E; [|reflexivity].
    apply String.eqb_eq in E. congruence.
Qed.

(** The [UNIQUE] constraint. An insert is refused, with
    [IntegrityError] and whatever the password, exactly when the name is
    already the username of a row. *)
Lemma insert_user_refused_iff (name pw : string) (rows : list User) :
  insert_user name pw rows = Raise (Exc "IntegrityError") <->
  In name (map row_username rows).
Proof.
  unfold insert_user. destruct (find_user name rows) as [r|] eqn:Hf.
  - split; [|reflexivity]. intros _.
    apply find_user_name in Hf as [Hin <-]. apply in_map. exact Hin.
  - split; [discriminate|]. intros Hin.
    apply find_user_None in Hf. contradiction.
Qed.

(** An insert keeps [store_ok] when the name is non-empty and stripped. *)
Lemma insert_user_store_ok (name pw : string) (rows rows' : list User) :
  store_ok rows -> name <> "" -> Py.strip name = name ->
  insert_user name pw rows = Ok rows' -> store_ok rows'.
Proof.
  intros (Hnames & Hids & Hall) Hne Hstrip Hins.
  apply insert_user_then_find in Hins as (Hnew & _ & _ & ->).
  destruct (next_id_above rows) as [Hpos Habove].
  unfold store_ok. rewrite !map_app. simpl. repeat split.
  - apply NoDup_app. repeat split; [exact Hnames| |apply NoDup_singleton].
    intros x Hx Hx'. apply list_elem_of_singleton in Hx'. subst x.
    apply Hnew. apply list_elem_of_In. exact Hx.
  - apply NoDup_app. repeat split; [exact Hids| |apply NoDup_singleton].
    intros x Hx Hx'. apply list_elem_of_singleton in Hx'. subst x.
    apply list_elem_of_In in Hx. apply in_map_iff in Hx as (r & Hr & Hin).
    rewrite Forall_forall in Habove.
    apply list_elem_of_In in Hin. specialize (Habove r Hin). simpl in Habove. lia.
  - apply Forall_app. split; [exact Hall|].
    constructor; [|constructor]. simpl. auto.
Qed.

(** ** The views, continued *)

Section MoreAppFacts.
Context {F Tensor : Type}.
Variable leb : F -> F -> bool.
Variable isnan : F -> bool.
Variable times100 : F -> F.
Variable round2 : F -> F.
Variable decode_image : string -> Result Tensor.
Variable model_predict : Tensor -> Result (list F).
Variable ascii_fold : string -> string.
Variable save_raises : string -> string -> option PyExc.
Variable bcrypt_hash : string -> string -> Result string.
Variable bcrypt_verify : string -> string -> Result bool.

Local Abbreviation classify_and_record :=
  (classify_and_record leb isnan times100 round2 model_predict).
Local Abbreviation diagnose :=
  (diagnose leb isnan times100 round2 decode_image model_predict ascii_fold
            save_raises).
Local Abbreviation call_view :=
  (call_view leb isnan times100 round2 decode_image model_predict ascii_fold
             save_raises
             bcrypt_hash bcrypt_verify).
Local Abbreviation serve_all :=
  (serve_all leb isnan times100 round2 decode_image model_predict ascii_fold
             save_raises
             bcrypt_hash bcrypt_verify).
Local Abbreviation signup := (@signup F bcrypt_hash).
Local Abbreviation login := (@login F bcrypt_verify).
Local Abbreviation stored_name := (secure_filename ascii_fold).
Local Abbreviation successful_append := (@successful_append F ascii_fold).
Local Abbreviation new_record := (new_record times100 round2).

Lemma nonempty_false (s : string) : Py.nonempty s = false -> s = "".
Proof. destruct s; [reflexivity|discriminate]. Qed.

Lemma nonempty_neq (s : string) : Py.nonempty s = true -> s <> "".
Proof. destruct s; [discriminate|congruence]. Qed.

(** Every way [signup] can end. *)
Lemma signup_cases (salt : string) (req : Request)
    (s s' : gmap string (SVal F)) (w w' : World) (o : Outcome F) :
  signup salt req s w = (o, s', w') ->
  s' = s /\ uploads w' = uploads w /\
  ((o = Returned (Redirect "login") /\
    exists u p h rows,
      method req = "POST" /\
      form req !! "username" = Some u /\ form req !! "password" = Some p /\
      Py.strip u <> "" /\ Py.strip p <> "" /\
      bcrypt_hash salt (Py.strip p) = Ok h /\
      insert_user (Py.strip u) h (users w) = Ok rows /\
      users w' = rows) \/
   (w' = w /\
    (o = Returned BadRequest \/
     (exists err, o = Returned (RenderSignup err)) \/
     (exists e u p,
        o = Raised e /\ method req = "POST" /\
        form req !! "username" = Some u /\ form req !! "password" = Some p /\
        Py.strip u <> "" /\ Py.strip p <> "" /\
        bcrypt_hash salt (Py.strip p) = Raise e)))).
Proof.
  unfold signup.
  destruct (String.eqb (method req) "POST") eqn:Hm.
  2:{ intros [= <- <- <-]. repeat split. right. eauto. }
  apply String.eqb_eq in Hm.
  destruct (form req !! "username") as [u|] eqn:Hu.
  2:{ intros [= <- <- <-]. repeat split. right. eauto. }
  destruct (form req !! "password") as [p|] eqn:Hp.
  2:{ intros [= <- <- <-]. repeat split. right. eauto. }
  destruct (Py.nonempty (Py.strip u)) eqn:Hnu.
  2:{ intros [= <- <- <-]. repeat split. right. eauto. }
  destruct (Py.nonempty (Py.strip p)) eqn:Hnp.
  2:{ intros [= <- <- <-]. repeat split. right. eauto. }
  simpl. apply nonempty_neq in Hnu, Hnp.
  destruct (bcrypt_hash salt (Py.strip p)) as [h|e] eqn:Hh.
  2:{ intros [= <- <- <-]. repeat split. right. split; [reflexivity|].
      right; right. exists e, u, p. auto 10. }
  destruct (insert_user _ _ _) as [rows|e] eqn:Hins.
  2:{ intros [= <- <- <-]. repeat split. right. eauto. }
  intros [= <- <- <-]. repeat split. left. split; [reflexivity|].
  exists u, p, h, rows. auto 10.
Qed.

(** Every way [login] can end. *)
Lemma login_cases (req : Request) (s s' : gmap string (SVal F))
    (w w' : World) (o : Outcome F) :
  login req s w = (o, s', w') ->
  w' = w /\
  ((o = Returned (Redirect "index") /\
    exists u p row,
      method req = "POST" /\
      form req !! "username" = Some u /\ form req !! "password" = Some p /\
      find_user (Py.strip u) (users w) = Some row /\
      bcrypt_verify (Py.strip p) (row_password row) = Ok true /\
      s' = logged_in_as (Py.strip u) s) \/
   (s' = s /\
    (o = Returned BadRequest \/
     (exists err, o = Returned (RenderLogin err)) \/
     (exists e u p row,
        o = Raised e /\ method req = "POST" /\
        form req !! "username" = Some u /\ form req !! "password" = Some p /\
        find_user (Py.strip u) (users w) = Some row /\
        bcrypt_verify (Py.strip p) (row_password row) = Raise e)))).
Proof.
  unfold login, logged_in_as.
  destruct (String.eqb (method req) "POST") eqn:Hm.
  2:{ intros [= <- <- <-]. split; [reflexivity|]. right. eauto. }
  apply String.eqb_eq in Hm.
  destruct (form req !! "username") as [u|] eqn:Hu.
  2:{ intros [= <- <- <-]. split; [reflexivity|]. right. eauto. }
  destruct (form req !! "password") as [p|] eqn:Hp.
  2:{ intros [= <- <- <-]. split; [reflexivity|]. right. eauto. }
  destruct (find_user (Py.strip u) (users w)) as [row|] eqn:Hrow.
  2:{ intros [= <- <- <-]. split; [reflexivity|]. right. eauto. }
  destruct (bcrypt_verify (Py.strip p) (row_password row)) as [[|]|e] eqn:Hv.
  - rewrite lookup_insert_ne by discriminate.
    intros [= <- <- <-]. split; [reflexivity|]. left. split; [reflexivity|].
    exists u, p, row. repeat split; auto.
  - intros [= <- <- <-]. split; [reflexivity|]. right. eauto.
  - intros [= <- <- <-]. split; [reflexivity|]. right. split; [reflexivity|].
    right; right. exists e, u, p, row. auto 10.
Qed.

Lemma logged_in_as_user (name : string) (s : gmap string (SVal F)) :
  logged_in_as name s !! "user" = Some (SStr name).
Proof.
  unfold logged_in_as. destruct (s !! "history").
  - apply lookup_insert_eq.
  - rewrite lookup_insert_ne by discriminate. apply lookup_insert_eq.
Qed.

Lemma logged_in_as_history (name : string) (s : gmap string (SVal F)) :
  logged_in_as name s !! "history"
  = Some (default (SList []) (s !! "history")).
Proof.
  unfold logged_in_as. destruct (s !! "history") as [v|] eqn:Hh; simpl.
  - rewrite lookup_insert_ne by discriminate. exact Hh.
  - apply lookup_insert_eq.
Qed.


(** X3: the [UNIQUE] constraint across requests. Once a signup has gone
    through, any later signup for the same name, up to surrounding blanks
    and whatever the (non-blank) password, changes neither the table nor
    the session; it is answered with "Username already exists" when
    [bcrypt.hash] hashes that password, and ends with the exception of
    [bcrypt.hash] when it raises. *)
Theorem signup_twice_same_name (salt1 salt2 : string) (req1 req2 : Request)
    (s1 s1' s2 : gmap string (SVal F)) (w w1 : World) (u1 u2 p2 : string) :
  signup salt1 req1 s1 w = (Returned (Redirect "login"), s1', w1) ->
  form req1 !! "username" = Some u1 ->
  method req2 = "POST" ->
  form req2 !! "username" = Some u2 -> form req2 !! "password" = Some p2 ->
  Py.strip u2 = Py.strip u1 -> Py.strip p2 <> "" ->
  (signup salt2 req2 s2 w1).1.2 = s2 /\ (signup salt2 req2 s2 w1).2 = w1 /\
  (forall h, bcrypt_hash salt2 (Py.strip p2) = Ok h ->
             signup salt2 req2 s2 w1
             = (Returned (RenderSignup (Some "Username already exists")),
                s2, w1)) /\
  (forall e, bcrypt_hash salt2 (Py.strip p2) = Raise e ->
             signup salt2 req2 s2 w1 = (Raised e, s2, w1)).
Proof.
  intros H1 Hu1 Hm2 Hu2 Hp2 Heq Hnp.
  apply signup_cases in H1 as (_ & _ & H1).
  destruct H1 as [(_ & u & p & h1 & rows & _ & Hu & _ & Hnu & _ & _ & Hins
                   & Hw)
                 |(_ & [[=]|[[err [=]]|(e & ? & ? & [=] & _)]])].
  rewrite Hu1 in Hu. injection Hu as <-.
  apply insert_user_then_find in Hins as (_ & Hfind & _ & _).
  unfold signup, insert_user.
  rewrite Hm2, Hu2, Hp2, Heq, Hw.
  rewrite (nonempty_true _ Hnu), (nonempty_true _ Hnp).
  cbn [String.eqb Ascii.eqb Bool.eqb negb orb].
  destruct (bcrypt_hash salt2 (Py.strip p2)) as [h|e].
  - rewrite Hfind. split; [reflexivity|]. split; [reflexivity|].
    split; [intros h' _; reflexivity|discriminate].
  - split; [reflexivity|]. split; [reflexivity|].
    split; [discriminate|]. intros e' [= <-]. reflexivity.
Qed.

(** X4: signup, then login. After a signup that went through, a login with
    the same username and password, up to surrounding blanks, succeeds as
    soon as the hash just stored verifies against that password: it
    redirects to the index and binds the trimmed username in the session,
    whatever other rows the table holds. *)
Theorem signup_then_login (salt : string) (req req' : Request)
    (s0 s0' s : gmap string (SVal F)) (w w1 : World) (u p u' p' : string) :
  signup salt req s0 w = (Returned (Redirect "login"), s0', w1) ->
  form req !! "username" = Some u -> form req !! "password" = Some p ->
  (forall h, bcrypt_hash salt (Py.strip p) = Ok h ->
             bcrypt_verify (Py.strip p) h = Ok true) ->
  method req' = "POST" ->
  form req' !! "username" = Some u' -> form req' !! "password" = Some p' ->
  Py.strip u' = Py.strip u -> Py.strip p' = Py.strip p ->
  login req' s w1
  = (Returned (Redirect "index"), logged_in_as (Py.strip u) s, w1) /\
  logged_in_as (Py.strip u) s !! "user" = Some (SStr (Py.strip u)).
Proof.
  intros H Hu Hp Hver Hm' Hu' Hp' Hequ Heqp.
  apply signup_cases in H as (_ & _ & H).
  destruct H as [(_ & u0 & p0 & h & rows & _ & Hu0 & Hp0 & _ & _ & Hh & Hins
                  & Hw)
                |(_ & [[=]|[[err [=]]|(e & ? & ? & [=] & _)]])].
  rewrite Hu in Hu0. injection Hu0 as <-.
  rewrite Hp in Hp0. injection Hp0 as <-.
  apply insert_user_then_find in Hins as (_ & Hfind & _ & _).
  split; [|apply logged_in_as_user].
  unfold login, logged_in_as.
  rewrite Hm', Hu', Hp', Hequ, Heqp, Hw, Hfind. simpl. rewrite (Hver h Hh).
  rewrite lookup_insert_ne by discriminate. reflexivity.
Qed.

(** The path of line 134 is the storage name put directly under
    [static/uploads/]. *)
Lemma upload_path (name : string) :
  os_path_join UPLOAD_FOLDER (stored_name name)
  = "static/uploads/" +:+ stored_name name.
Proof.
  destruct (secure_filename_shape ascii_fold name) as [Hsafe _].
  change UPLOAD_FOLDER with "static/uploads".
  destruct (stored_name name) as [|c r]; [reflexivity|].
  simpl in Hsafe. apply andb_prop in Hsafe as [Hc _].
  unfold os_path_join. cbn [Py.startswith_char].
  destruct (Ascii.eqb c "/") eqn:E; [|reflexivity].
  apply Ascii.eqb_eq in E. subst c. discriminate Hc.
Qed.

(** Every way [diagnose] can end, with what it leaves on disk. *)
Lemma diagnose_world (req : Request) (s s' : gmap string (SVal F))
    (w w' : World) (o : Outcome F) :
  diagnose req s w = (o, s', w') ->
  (w' = w /\ s' = s /\
   ((s !! "user" = None /\ o = Returned (Redirect "login")) \/
    (is_Some (s !! "user") /\
     (method req <> "POST" \/
      upload_accepted (files req !! "leaf_image") = false) /\
     o = Returned (RenderDiagnose None None None)) \/
    (exists f e,
       is_Some (s !! "user") /\ method req = "POST" /\
       files req !! "leaf_image" = Some f /\
       upload_accepted (Some f) = true /\
       save_raises ("static/uploads/" +:+ stored_name (filename f))
                   (stream f) = Some e /\
       o = Raised e))) \/
  (exists f,
     is_Some (s !! "user") /\ method req = "POST" /\
     files req !! "leaf_image" = Some f /\
     upload_accepted (Some f) = true /\
     save_raises ("static/uploads/" +:+ stored_name (filename f))
                 (stream f) = None /\
     w' = {| users := users w;
             uploads := <["static/uploads/" +:+ stored_name (filename f)
                          := stream f]> (uploads w) |} /\
     match decode_image (stream f) with
     | Raise e => o = Raised e /\ s' = s
     | Ok img =>
         match classify_and_record img (stored_name (filename f)) s with
         | TryOk p c url s1 =>
             o = Returned (RenderDiagnose (Some p) (Some c) (Some url)) /\
             s' = s1
         | TryExc _ url =>
             o = Returned (RenderDiagnose (Some "Error") (Some (PyInt 0)) url)
             /\ s' = s
         end
     end).
Proof.
  unfold diagnose, require_login, render_nothing, prepare_image.
  destruct (s !! "user") as [v|] eqn:Hu.
  2:{ intros [= <- <- <-]. left. auto. }
  destruct (String.eqb (method req) "POST") eqn:Hm.
  2:{ apply String.eqb_neq in Hm. intros [= <- <- <-]. left.
      repeat split. right; left. eauto. }
  apply String.eqb_eq in Hm.
  destruct (upload_accepted (files req !! "leaf_image")) eqn:Hacc.
  2:{ intros [= <- <- <-]. left. repeat split. right; left. eauto. }
  destruct (files req !! "leaf_image") as [f|] eqn:Hf; [|discriminate Hacc].
  rewrite upload_path.
  destruct (save_raises _ (stream f)) as [e|] eqn:Hsave.
  { intros [= <- <- <-]. left. repeat split. right; right.
    exists f, e. repeat split; eauto. }
  cbn [uploads]. rewrite lookup_insert_eq.
  intros H. right. exists f. repeat split; eauto.
  - destruct (decode_image (stream f)) as [img|e];
      [destruct (classify_and_record _ _ _)|]; injection H as _ _ <-;
      reflexivity.
  - destruct (decode_image (stream f)) as [img|e];
      [destruct (classify_and_record _ _ _)|]; injection H as <- <- _;
      auto.
Qed.


(** X6: the image URL of a new history entry names the file just stored.
    When a request appended an entry, the upload folder holds the bytes of
    the upload at [static/uploads/<filename of the entry>], those bytes
    decoded, and the entry's URL is that path with a leading slash. *)
Theorem appended_entry_serves_upload (req : Request)
    (s s' : gmap string (SVal F)) (w w' : World) (o : Outcome F)
    (r : DiagnosisRecord F) :
  diagnose req s w = (o, s', w') -> successful_append req o = Some r ->
  exists f img,
    files req !! "leaf_image" = Some f /\
    rec_filename r = stored_name (filename f) /\
    uploads w' !! ("static/uploads/" +:+ rec_filename r) = Some (stream f) /\
    decode_image (stream f) = Ok img /\
    rec_image_url r = "/" +:+ "static/uploads/" +:+ rec_filename r.
Proof.
  intros Hd Hr.
  apply successful_append_Some in Hr as (f & p & c & url & Hf & -> & ->).
  apply diagnose_world in Hd
    as [(_ & _ & [[_ [=]]|[(_ & _ & [=])|(? & ? & _ & _ & _ & _ & _ & [=])]])
       |Hd].
  destruct Hd as (f' & _ & _ & Hf' & _ & _ & -> & Hd).
  rewrite Hf in Hf'. injection Hf' as <-.
  destruct (decode_image (stream f)) as [img|e] eqn:Himg;
    [|destruct Hd as [[=] _]].
  destruct (classify_and_record img (stored_name (filename f)) s)
    as [p' c' url' s1|e url'] eqn:Hc; [|destruct Hd as [[=] _]].
  destruct Hd as [[= <- <- <-] _].
  apply classify_and_record_TryOk in Hc
    as (_ & _ & _ & _ & _ & _ & _ & _ & _ & -> & _).
  exists f, img. cbn [rec_filename rec_image_url uploads].
  rewrite lookup_insert_eq. repeat split; assumption.
Qed.


(** X8: a model output the five labels do not cover. When the model
    returns, for a stored upload, an empty vector or one whose largest
    entry sits at index 5 or beyond, [np.argmax] or the lookup in
    [class_names] raises inside the [try] block: the response is the
    sentinel, with no image URL, and the session is as it was. *)
Theorem diagnose_output_outside_labels (req : Request)
    (s : gmap string (SVal F)) (w : World) (f : FileStorage) (v : SVal F)
    (img : Tensor) (preds : list F) :
  s !! "user" = Some v -> method req = "POST" ->
  files req !! "leaf_image" = Some f -> upload_accepted (Some f) = true ->
  save_raises (os_path_join UPLOAD_FOLDER (stored_name (filename f)))
              (stream f) = None ->
  decode_image (stream f) = Ok img -> model_predict img = Ok preds ->
  (preds = [] \/
   exists i, np_argmax leb isnan preds = Ok i /\ length class_names <= i) ->
  exists w',
    diagnose req s w
    = (Returned (RenderDiagnose (Some "Error") (Some (PyInt 0)) None), s, w').
Proof.
  intros Hu Hm Hf Hacc Hsave Hd Hp Hbad.
  unfold diagnose, require_login, prepare_image, classify_and_record.
  rewrite Hu, Hm, Hf, Hacc. cbn [String.eqb Ascii.eqb Bool.eqb].
  rewrite Hsave. cbn [uploads].
  rewrite lookup_insert_eq, Hd, Hp.
  destruct Hbad as [->|(i & Hi & Hlen)]; [simpl; eauto|].
  rewrite Hi.
  rewrite (proj2 (lookup_ge_None class_names i)) by exact Hlen. eauto.
Qed.

(** X9: one request, at most one entry. [diagnose] keeps the logged-in
    user, never alters or drops an entry of the history, and appends one
    entry exactly when its response carries a label with a float
    confidence and an image URL; in every other case the history is as it
    was. *)
Theorem diagnose_history_step (req : Request) (s s' : gmap string (SVal F))
    (w w' : World) (o : Outcome F) (h : list (DiagnosisRecord F)) :
  diagnose req s w = (o, s', w') -> session_history s = SList h ->
  s' !! "user" = s !! "user" /\
  ((successful_append req o = None /\ s' = s) \/
   (exists r, successful_append req o = Some r /\
              session_history s' = SList (h ++ [r]))).
Proof.
  intros Hd Hh. pose proof Hd as Hc.
  apply diagnose_cases in Hc as [[-> Hc]|Hc].
  - split; [reflexivity|]. left. split; [|reflexivity].
    unfold successful_append.
    destruct (files req !! "leaf_image"); [|reflexivity].
    destruct Hc as [(_ & -> & _)|[(-> & _)|[[e ->]|[url ->]]]];
      reflexivity.
  - destruct Hc as (f & img & p & m & h' & _ & Hf & _ & _ & _ & _
                    & Hh' & -> & ->).
    rewrite Hh in Hh'. injection Hh' as <-.
    split; [rewrite lookup_insert_ne by discriminate; reflexivity|].
    right. eexists. split.
    + unfold successful_append. rewrite Hf. reflexivity.
    + unfold session_history. rewrite lookup_insert_eq. reflexivity.
Qed.

(** X10: an upload after [clear_history]. [clear_history] removes the key;
    the next request that appends finds no history, starts from the empty
    list (line 145), and leaves a history holding just its own entry. *)
Theorem clear_history_then_upload (req : Request)
    (s s1 s2 : gmap string (SVal F)) (w w1 w2 : World) (o1 o : Outcome F)
    (v : SVal F) (r : DiagnosisRecord F) :
  s !! "user" = Some v ->
  clear_history s w = (o1, s1, w1) ->
  diagnose req s1 w1 = (o, s2, w2) ->
  successful_append req o = Some r ->
  s1 !! "history" = None /\ session_history s2 = SList [r].
Proof.
  intros Hu Hclear Hd Hr.
  unfold clear_history, require_login in Hclear. rewrite Hu in Hclear.
  injection Hclear as _ <- <-.
  assert (Hnone : delete "history" s !! "history" = None)
    by apply lookup_delete_eq.
  split; [exact Hnone|].
  assert (Hh : session_history (delete "history" s) = SList []).
  { unfold session_history. rewrite Hnone. reflexivity. }
  destruct (diagnose_appends leb isnan times100 round2 decode_image
              model_predict ascii_fold save_raises _ _ _ _ _ _ _ _ Hd Hr Hh)
    as [H _].
  exact H.
Qed.

Lemma diagnose_keeps_user (req : Request) (s s' : gmap string (SVal F))
    (w w' : World) (o : Outcome F) :
  diagnose req s w = (o, s', w') -> s' !! "user" = s !! "user".
Proof.
  intros H. apply diagnose_cases in H as [[-> _]|H]; [reflexivity|].
  destruct H as (f & img & p & m & h & _ & _ & _ & _ & _ & _ & _ & -> & _).
  rewrite lookup_insert_ne by discriminate. reflexivity.
Qed.

(** X11: two uploads under one storage name. When two accepted uploads have
    names that [secure_filename] maps to the same storage name, and
    [file.save] raises for neither, the second request replaces the bytes
    the first one stored: after both, the one path holds the second
    upload, and apart from that path the folder is as it was before the
    first. *)
Theorem same_storage_name_overwrites (req1 req2 : Request)
    (s s1 s2 : gmap string (SVal F)) (w w1 w2 : World) (o1 o2 : Outcome F)
    (f1 f2 : FileStorage) (v : SVal F) :
  s !! "user" = Some v -> method req1 = "POST" -> method req2 = "POST" ->
  files req1 !! "leaf_image" = Some f1 -> upload_accepted (Some f1) = true ->
  files req2 !! "leaf_image" = Some f2 -> upload_accepted (Some f2) = true ->
  stored_name (filename f1) = stored_name (filename f2) ->
  save_raises ("static/uploads/" +:+ stored_name (filename f1)) (stream f1)
  = None ->
  save_raises ("static/uploads/" +:+ stored_name (filename f2)) (stream f2)
  = None ->
  diagnose req1 s w = (o1, s1, w1) ->
  diagnose req2 s1 w1 = (o2, s2, w2) ->
  uploads w1 !! ("static/uploads/" +:+ stored_name (filename f1))
  = Some (stream f1) /\
  uploads w2
  = <["static/uploads/" +:+ stored_name (filename f1) := stream f2]>
      (uploads w).
Proof.
  intros Hu Hm1 Hm2 Hf1 Ha1 Hf2 Ha2 Hname Hs1 Hs2 Hd1 Hd2.
  pose proof (diagnose_keeps_user _ _ _ _ _ _ Hd1) as Hu1.
  rewrite Hu in Hu1.
  apply diagnose_world in Hd1 as [(_ & _ & H)|H].
  { destruct H as [[H _]|[(_ & [H|H] & _)|(f & e & _ & _ & Hf & _ & Hs & _)]];
      [congruence|congruence| |].
    - rewrite Hf1, Ha1 in H. discriminate.
    - rewrite Hf1 in Hf. injection Hf as <-. congruence. }
  destruct H as (f & _ & _ & Hf & _ & _ & -> & _).
  rewrite Hf1 in Hf. injection Hf as <-.
  apply diagnose_world in Hd2 as [(_ & _ & H)|H].
  { destruct H as [[H _]|[(_ & [H|H] & _)|(f & e & _ & _ & Hf & _ & Hs & _)]];
      [congruence|congruence| |].
    - rewrite Hf2, Ha2 in H. discriminate.
    - rewrite Hf2 in Hf. injection Hf as <-. congruence. }
  destruct H as (f & _ & _ & Hf & _ & _ & -> & _).
  rewrite Hf2 in Hf. injection Hf as <-.
  cbn [uploads]. rewrite <- Hname. split.
  - apply lookup_insert_eq.
  - apply insert_insert_eq.
Qed.

(** X12: [logout] (lines 113-117) locks the session out. Whatever the
    session held, after [logout] it has neither user nor history, its
    other keys and the stored state are untouched, every protected view
    answers with the redirect to the login view, and a second [logout]
    changes nothing more. *)
Theorem logout_locks_out (s s' : gmap string (SVal F)) (w w' : World)
    (o : Outcome F) :
  logout s w = (o, s', w') ->
  o = Returned (Redirect "login") /\ w' = w /\
  s' !! "user" = None /\ s' !! "history" = None /\
  (forall k, k <> "user" -> k <> "history" -> s' !! k = s !! k) /\
  (forall salt r req,
     session_protected r = true ->
     call_view salt r req s' w' = (Returned (Redirect "login"), s', w')) /\
  logout s' w' = (o, s', w').
Proof.
  unfold logout. intros [= <- <- <-].
  assert (Hu : delete "history" (delete "user" s) !! "user" = None).
  { rewrite lookup_delete_ne by discriminate. apply lookup_delete_eq. }
  assert (Hh : delete "history" (delete "user" s) !! "history" = None)
    by apply lookup_delete_eq.
  repeat split.
  - exact Hu.
  - exact Hh.
  - intros k Hk1 Hk2. rewrite !lookup_delete_ne by congruence. reflexivity.
  - intros salt r req Hr.
    destruct r; try discriminate Hr; simpl;
      unfold index, diagnose, info, history, clear_history, require_login;
      rewrite Hu; reflexivity.
  - f_equal. f_equal. apply map_eq. intros k.
    destruct (decide (k = "history")) as [->|Hk1];
      [rewrite !lookup_delete_eq; reflexivity|].
    rewrite (lookup_delete_ne _ "history" k) by congruence.
    destruct (decide (k = "user")) as [->|Hk2];
      [rewrite lookup_delete_eq; symmetry; exact Hu|].
    rewrite (lookup_delete_ne _ "user" k) by congruence. reflexivity.
Qed.

(** X13: a login that succeeds opens the protected views. After it, the
    session names a user who has a row in the table, the index, the info
    pages and the history page are rendered, and [diagnose] no longer
    answers with the redirect to the login view. *)
Theorem login_grants_access (req : Request) (s s' : gmap string (SVal F))
    (w w' : World) :
  login req s w = (Returned (Redirect "index"), s', w') ->
  (exists row,
     In row (users w') /\
     s' !! "user" = Some (SStr (row_username row))) /\
  index s' w' = (Returned RenderIndex, s', w') /\
  (forall disease,
     info disease s' w' = (Returned (RenderInfo disease), s', w')) /\
  history s' w' = (Returned (RenderHistory (session_history s')), s', w') /\
  (forall rq, (diagnose rq s' w').1.1 <> Returned (Redirect "login")).
Proof.
  intros H. apply login_cases in H as (-> & H).
  destruct H as [(_ & u & p & row & _ & _ & _ & Hrow & _ & ->)
                |(_ & [[=]|[[err [=]]|(? & ? & ? & ? & [=] & _)]])].
  apply find_user_name in Hrow as [Hin Hname].
  pose proof (logged_in_as_user (Py.strip u) s) as Hu.
  split; [exists row; rewrite Hname; auto|].
  unfold index, info, history, require_login. rewrite Hu.
  repeat split.
  intros rq Hred.
  destruct (diagnose rq (logged_in_as (Py.strip u) s) w) as [[o s1] w1] eqn:Hd.
  simpl in Hred. subst o.
  apply diagnose_world in Hd
    as [(_ & _ & [[Hnone _]|[(_ & _ & [=])|(? & ? & _ & _ & _ & _ & _ & [=])]])
       |Hd].
  - rewrite Hu in Hnone. discriminate.
  - destruct Hd as (f & _ & _ & _ & _ & _ & _ & Hd).
    destruct (decode_image (stream f)); [|destruct Hd as [[=] _]].
    destruct (classify_and_record _ _ _); destruct Hd as [[=] _].
Qed.

(** X14: a login after a logout starts from an empty history. *)
Theorem logout_then_login_fresh (req : Request)
    (s s1 s2 : gmap string (SVal F)) (w w1 w2 : World) (o : Outcome F) :
  logout s w = (o, s1, w1) ->
  login req s1 w1 = (Returned (Redirect "index"), s2, w2) ->
  s2 !! "history" = Some (SList []) /\ session_history s2 = SList [].
Proof.
  unfold logout. intros [= <- <- <-] H.
  apply login_cases in H as (_ & H).
  destruct H as [(_ & u & p & row & _ & _ & _ & _ & _ & ->)
                |(_ & [[=]|[[err [=]]|(? & ? & ? & ? & [=] & _)]])].
  unfold session_history. rewrite logged_in_as_history.
  rewrite lookup_delete_eq. auto.
Qed.

(** X15: a login without a logout in between takes over the history. When
    the session already holds a history, a successful login, under
    whatever username, binds that username and leaves the history it
    found in place ([setdefault], line 106). *)
Theorem relogin_keeps_history (req : Request) (s s' : gmap string (SVal F))
    (w w' : World) (u : string) (v : SVal F) :
  login req s w = (Returned (Redirect "index"), s', w') ->
  form req !! "username" = Some u ->
  s !! "history" = Some v ->
  s' !! "user" = Some (SStr (Py.strip u)) /\
  s' !! "history" = Some v /\
  session_history s' = session_history s.
Proof.
  intros H Hu Hv. apply login_cases in H as (_ & H).
  destruct H as [(_ & u0 & p & row & _ & Hu0 & _ & _ & _ & ->)
                |(_ & [[=]|[[err [=]]|(? & ? & ? & ? & [=] & _)]])].
  rewrite Hu in Hu0. injection Hu0 as <-.
  split; [apply logged_in_as_user|].
  unfold session_history. rewrite logged_in_as_history, Hv. auto.
Qed.

(** One view keeps [store_ok]. *)
Lemma call_view_store_ok (salt : string) (r : Route) (req : Request)
    (s : gmap string (SVal F)) (w : World) :
  store_ok (users w) -> store_ok (users (call_view salt r req s w).2).
Proof.
  intros Hok.
  destruct (call_view salt r req s w) as [[o s'] w'] eqn:H. simpl.
  destruct r; simpl in H.
  - unfold index in H. destruct (s !! "user"); injection H as _ _ <-; exact Hok.
  - apply signup_cases in H as (_ & _ & H).
    destruct H as [(_ & u & p & h & rows & _ & _ & _ & Hnu & _ & _ & Hins
                    & ->)
                  |(-> & _)]; [|exact Hok].
    apply (insert_user_store_ok _ _ _ _ Hok Hnu (strip_with_idem _ u) Hins).
  - apply login_cases in H as (-> & _). exact Hok.
  - injection H as _ _ <-. exact Hok.
  - apply diagnose_world in H as [(-> & _)|(f & _ & _ & _ & _ & _ & -> & _)];
      exact Hok.
  - unfold info, require_login in H.
    destruct (s !! "user"); injection H as _ _ <-; exact Hok.
  - injection H as _ _ <-. exact Hok.
  - unfold history, require_login in H.
    destruct (s !! "user"); injection H as _ _ <-; exact Hok.
  - unfold clear_history, require_login in H.
    destruct (s !! "user"); injection H as _ _ <-; exact Hok.
  - injection H as _ _ <-. exact Hok.
Qed.

(** X16: the table stays well formed. Whatever requests are served, in
    whatever order and with whatever contents, a table whose usernames are
    pairwise distinct, non-empty and free of surrounding blanks, and whose
    ids are pairwise distinct and positive, is still such a table
    afterwards. *)
Theorem serve_all_store_ok (calls : list Call) (s : gmap string (SVal F))
    (w : World) :
  store_ok (users w) -> store_ok (users (serve_all calls s w).2).
Proof.
  revert s w. induction calls as [|c calls IH]; intros s w Hok; [exact Hok|].
  simpl.
  pose proof (call_view_store_ok (call_salt c) (call_route c)
                (call_request c) s w Hok) as Hstep.
  destruct (call_view _ _ _ s w) as [[o s1] w1]. simpl in Hstep.
  apply IH. exact Hstep.
Qed.

Lemma new_record_ok (name p : string) (m : F) :
  In p class_names -> record_ok (new_record (stored_name name) p m).
Proof.
  intros Hp. unfold record_ok, new_record. simpl. repeat split.
  - exact Hp.
  - eauto.
  - apply secure_filename_shape.
Qed.

Lemma session_ok_delete (k : string) (s : gmap string (SVal F)) :
  session_ok s -> session_ok (delete k s).
Proof.
  intros [Hu Hh]. split; intros v Hv.
  - apply Hu. apply lookup_delete_Some in Hv as [_ Hv]. exact Hv.
  - apply Hh. apply lookup_delete_Some in Hv as [_ Hv]. exact Hv.
Qed.

(** One view keeps [session_ok]. *)
Lemma call_view_session_ok (salt : string) (r : Route) (req : Request)
    (s : gmap string (SVal F)) (w : World) :
  session_ok s -> session_ok (call_view salt r req s w).1.2.
Proof.
  intros Hok.
  destruct (call_view salt r req s w) as [[o s'] w'] eqn:H. simpl.
  destruct r; simpl in H.
  - unfold index in H. destruct (s !! "user"); injection H as _ <- _; exact Hok.
  - apply signup_cases in H as (-> & _). exact Hok.
  - apply login_cases in H as (_ & H).
    destruct H as [(_ & u & p & row & _ & _ & _ & _ & _ & ->)|(-> & _)];
      [|exact Hok].
    destruct Hok as [_ Hh]. split; intros v Hv.
    + rewrite logged_in_as_user in Hv. injection Hv as <-. eauto.
    + rewrite logged_in_as_history in Hv. injection Hv as <-.
      destruct (s !! "history") as [v|] eqn:E; simpl; [auto|].
      exists []. split; [reflexivity|constructor].
  - injection H as _ <- _. apply session_ok_delete, session_ok_delete, Hok.
  - apply diagnose_cases in H as [[-> _]|H]; [exact Hok|].
    destruct H as (f & img & p & m & h & _ & _ & _ & _ & Hp & _ & Hh & -> & _).
    destruct Hok as [Hu Hhist]. split; intros v Hv.
    + rewrite lookup_insert_ne in Hv by discriminate. auto.
    + rewrite lookup_insert_eq in Hv. injection Hv as <-.
      eexists. split; [reflexivity|].
      apply Forall_app. split; [|constructor; [|constructor]].
      * unfold session_history in Hh.
        destruct (s !! "history") as [v|] eqn:E; simpl in Hh.
        -- destruct (Hhist v eq_refl) as (h0 & -> & Hall).
           injection Hh as <-. exact Hall.
        -- injection Hh as <-. constructor.
      * apply new_record_ok. exact Hp.
  - unfold info, require_login in H.
    destruct (s !! "user"); injection H as _ <- _; exact Hok.
  - injection H as _ <- _. exact Hok.
  - unfold history, require_login in H.
    destruct (s !! "user"); injection H as _ <- _; exact Hok.
  - unfold clear_history, require_login in H.
    destruct (s !! "user"); injection H as _ <- _;
      [apply session_ok_delete|]; exact Hok.
  - injection H as _ <- _. exact Hok.
Qed.

(** X17: the session stays well formed. Starting from a session of that
    shape (the empty one, for a new visitor), whatever requests are
    served, ["user"] is bound to a string if at all, and ["history"] to a
    list whose every entry has a label among the five class names (never
    the sentinel), a float confidence, a storage name of safe characters
    and the URL of that name under [/static/uploads/]. *)
Theorem serve_all_session_ok (calls : list Call) (s : gmap string (SVal F))
    (w : World) :
  session_ok s -> session_ok (serve_all calls s w).1.
Proof.
  revert s w. induction calls as [|c calls IH]; intros s w Hok; [exact Hok|].
  simpl.
  pose proof (call_view_session_ok (call_salt c) (call_route c)
                (call_request c) s w Hok) as Hstep.
  destruct (call_view _ _ _ s w) as [[o s1] w1]. simpl in Hstep.
  apply IH. exact Hstep.
Qed.

(** What one view does to the stored state. *)
Lemma call_view_world (salt : string) (r : Route) (req : Request)
    (s s' : gmap string (SVal F)) (w w' : World) (o : Outcome F) :
  call_view salt r req s w = (o, s', w') ->
  (exists extra, users w' = users w ++ extra /\ length extra <= 1 /\
                 (r <> RSignup -> extra = []) /\
                 (method req <> "POST" -> extra = [])) /\
  (r <> RDiagnose \/ method req <> "POST" -> uploads w' = uploads w).
Proof.
  assert (Hsame : w' = w ->
    (exists extra, users w' = users w ++ extra /\ length extra <= 1 /\
                   (r <> RSignup -> extra = []) /\
                   (method req <> "POST" -> extra = [])) /\
    (r <> RDiagnose \/ method req <> "POST" -> uploads w' = uploads w)).
  { intros ->. split; [|reflexivity]. exists [].
    rewrite app_nil_r. simpl. repeat split; auto. }
  destruct r; simpl; intros H.
  - unfold index in H. destruct (s !! "user"); injection H as _ _ <-; auto.
  - apply signup_cases in H as (_ & Hup & H).
    destruct H as [(_ & u & p & h & rows & Hm & _ & _ & _ & _ & _ & Hins
                    & Hw)
                  |(-> & _)]; [|auto].
    apply insert_user_then_find in Hins as (_ & _ & _ & ->).
    split; [|intros _; exact Hup].
    eexists. split; [exact Hw|]. simpl. repeat split; [lia|congruence|].
    intros Hne. contradiction.
  - apply login_cases in H as (-> & _). auto.
  - injection H as _ _ <-. auto.
  - apply diagnose_world in H as [(-> & _)|H]; [auto|].
    destruct H as (f & _ & Hm & _ & _ & _ & -> & _). split.
    + exists []. rewrite app_nil_r. simpl. repeat split; auto.
    + intros [Hne|Hne]; [congruence|contradiction].
  - unfold info, require_login in H.
    destruct (s !! "user"); injection H as _ _ <-; auto.
  - injection H as _ _ <-. auto.
  - unfold history, require_login in H.
    destruct (s !! "user"); injection H as _ _ <-; auto.
  - unfold clear_history, require_login in H.
    destruct (s !! "user"); injection H as _ _ <-; auto.
  - injection H as _ _ <-. auto.
Qed.

(** X18: rows are only ever added. Whatever requests are served, the table
    afterwards is the table before followed by new rows, at most one per
    request: no row is removed, reordered or rewritten (no username, hash
    or id changes). Without a request to [/signup] the table is unchanged,
    and without a request to [/diagnose] so is the upload folder. *)
Theorem serve_all_rows_append_only (calls : list Call)
    (s : gmap string (SVal F)) (w : World) :
  (exists extra,
     users (serve_all calls s w).2 = users w ++ extra /\
     length extra <= length calls /\
     (Forall (fun c => call_route c <> RSignup) calls -> extra = [])) /\
  (Forall (fun c => call_route c <> RDiagnose) calls ->
   uploads (serve_all calls s w).2 = uploads w).
Proof.
  revert s w. induction calls as [|c calls IH]; intros s w.
  - simpl. split; [|reflexivity]. exists []. rewrite app_nil_r. auto.
  - simpl.
    destruct (call_view (call_salt c) (call_route c) (call_request c) s w)
      as [[o s1] w1] eqn:Hc.
    apply call_view_world in Hc as [(e1 & He1 & Hl1 & Hn1 & _) Hup1].
    destruct (IH s1 w1) as [(e2 & He2 & Hl2 & Hn2) Hup2].
    split.
    + exists (e1 ++ e2). rewrite He2, He1, <- app_assoc.
      split; [reflexivity|]. rewrite length_app. split; [lia|].
      intros Hall. inversion Hall as [|? ? Hc1 Hrest]; subst.
      rewrite (Hn1 Hc1), (Hn2 Hrest). reflexivity.
    + intros Hall. inversion Hall as [|? ? Hc1 Hrest]; subst.
      rewrite (Hup2 Hrest). apply Hup1. left. exact Hc1.
Qed.

(** X19: requests that are not POSTs leave the stored state alone. For
    every route, a request whose method is not POST changes neither the
    table nor the upload folder; it changes the session only on [/logout]
    and [/clear_history], which act on a GET. *)
Theorem non_post_keeps_stored_state (salt : string) (r : Route)
    (req : Request) (s : gmap string (SVal F)) (w : World) :
  method req <> "POST" ->
  (call_view salt r req s w).2 = w /\
  (r <> RLogout -> r <> RClearHistory -> (call_view salt r req s w).1.2 = s).
Proof.
  intros Hm.
  destruct (call_view salt r req s w) as [[o s'] w'] eqn:H. simpl.
  pose proof H as Hw.
  apply call_view_world in Hw as [(extra & Hus & _ & _ & Hex) Hup].
  rewrite (Hex Hm), app_nil_r in Hus.
  specialize (Hup (or_intror Hm)).
  split; [destruct w, w'; simpl in *; congruence|].
  intros Hr1 Hr2. destruct r; simpl in H.
  - unfold index in H. destruct (s !! "user"); congruence.
  - apply signup_cases in H as (-> & _). reflexivity.
  - apply login_cases in H as (_ & [(_ & u & p & row & Hp & _)|(-> & _)]);
      [contradiction|reflexivity].
  - contradiction.
  - apply diagnose_world in H as [(_ & -> & _)|(f & _ & Hp & _)];
      [reflexivity|contradiction].
  - unfold info, require_login in H. destruct (s !! "user"); congruence.
  - unfold about in H. congruence.
  - unfold history, require_login in H. destruct (s !! "user"); congruence.
  - contradiction.
  - unfold ping in H. congruence.
Qed.

End MoreAppFacts.

(** ** [allowed_file] *)

Lemma contains_app_sep (c : ascii) (a b : string) :
  Py.contains c (a +:+ String c b) = true.
Proof.
  induction a as [|d a IH]; simpl; [rewrite Ascii.eqb_refl; reflexivity|].
  destruct (Ascii.eqb d c); [reflexivity|exact IH].
Qed.

(** X20: [allowed_file] (lines 48-49) looks at the text after the last dot
    only, and at that without regard to case. For an extension free of
    dots, the verdict on [stem.ext] is whether [ext] in lower case is one
    of the allowed extensions; so two names whose last segments agree up
    to case get the same verdict, whatever comes before, earlier
    extensions and path separators included. *)
Theorem allowed_file_last_segment (stem stem' ext ext' : string) :
  Py.contains "." ext = false -> Py.contains "." ext' = false ->
  Py.lower ext = Py.lower ext' ->
  allowed_file (stem +:+ "." +:+ ext)
  = in_strings (Py.lower ext) ALLOWED_EXTENSIONS /\
  allowed_file (stem +:+ "." +:+ ext) = allowed_file (stem' +:+ "." +:+ ext').
Proof.
  intros He He' Hl.
  assert (H : forall st e, Py.contains "." e = false ->
            allowed_file (st +:+ "." +:+ e)
            = in_strings (Py.lower e) ALLOWED_EXTENSIONS).
  { intros st e Hc. unfold allowed_file.
    change (st +:+ "." +:+ e) with (st +:+ String "." e).
    rewrite contains_app_sep.
    rewrite (proj2 (rsplit1_Some "." (st +:+ String "." e) st e)
               (conj eq_refl Hc)).
    reflexivity. }
  split; [apply H; exact He|].
  rewrite (H stem ext He), (H stem' ext' He'), Hl. reflexivity.
Qed.

(** ** Further runs in the concrete environment *)

Lemma insert_user_then_find_witness :
  find_user "bob" ([Demo.alice]
                   ++ [{| row_id := 2; row_username := "bob";
                          row_password := "Ym9i$s3cret" |}])
  = Some {| row_id := 2; row_username := "bob";
            row_password := "Ym9i$s3cret" |} /\
  find_user "alice" ([Demo.alice]
                     ++ [{| row_id := 2; row_username := "bob";
                            row_password := "Ym9i$s3cret" |}])
  = find_user "alice" [Demo.alice].
Proof.
  destruct (insert_user_then_find "bob" "Ym9i$s3cret" [Demo.alice]
              ([Demo.alice]
               ++ [{| row_id := 2; row_username := "bob";
                      row_password := "Ym9i$s3cret" |}]) eq_refl)
    as (_ & Hnew & Hold & _).
  split; [exact Hnew|]. apply Hold. discriminate.
Defined.


Example signup_nul_password_raises :
  Demo.signup "Ym9i" (Demo.post_form "carol" Demo.nul_password)
    Demo.anonymous Demo.world0
  = (Raised (Exc "PasswordValueError"), Demo.anonymous, Demo.world0).
Proof. reflexivity. Qed.

Lemma signup_twice_same_name_witness :
  let w1 := (Demo.signup "Ym9i" Demo.bob_form Demo.anonymous Demo.world0).2 in
  Demo.signup "eA" (Demo.post_form "bob" "other") Demo.logged_in w1
  = (Returned (RenderSignup (Some "Username already exists")),
     Demo.logged_in, w1).
Proof.
  intros w1.
  destruct (signup_twice_same_name Demo.bcrypt_hash "Ym9i" "eA"
              Demo.bob_form (Demo.post_form "bob" "other") Demo.anonymous
              Demo.anonymous Demo.logged_in Demo.world0 w1
              " bob " "bob" "other")
    as (_ & _ & H & _).
  - vm_compute. reflexivity.
  - reflexivity.
  - reflexivity.
  - reflexivity.
  - reflexivity.
  - reflexivity.
  - discriminate.
  - apply (H "eA$other"). reflexivity.
Defined.

Lemma signup_then_login_witness :
  let w1 := (Demo.signup "Ym9i" Demo.bob_form Demo.anonymous Demo.world0).2 in
  Demo.login (Demo.post_form "bob" " s3cret") Demo.anonymous w1
  = (Returned (Redirect "index"), logged_in_as "bob" Demo.anonymous, w1) /\
  logged_in_as "bob" Demo.anonymous !! "user" = Some (@SStr Q "bob").
Proof.
  intros w1.
  apply (signup_then_login Demo.bcrypt_hash Demo.bcrypt_verify "Ym9i"
           Demo.bob_form (Demo.post_form "bob" " s3cret") Demo.anonymous
           Demo.anonymous Demo.anonymous Demo.world0 w1
           " bob " "s3cret" "bob" " s3cret").
  - vm_compute. reflexivity.
  - reflexivity.
  - reflexivity.
  - intros h [= <-]. reflexivity.
  - reflexivity.
  - reflexivity.
  - reflexivity.
  - reflexivity.
  - reflexivity.
Defined.


Lemma appended_entry_serves_upload_witness :
  let run := Demo.diagnose (Demo.post_file "../x/rust leaf.PNG" "rust leaf")
               Demo.logged_in Demo.world0 in
  exists f img,
    files (Demo.post_file "../x/rust leaf.PNG" "rust leaf") !! "leaf_image"
    = Some f /\
    "x_rust_leaf.PNG" = secure_filename Demo.ascii_fold (filename f) /\
    uploads run.2 !! "static/uploads/x_rust_leaf.PNG" = Some (stream f) /\
    Demo.decode_image (stream f) = Ok img /\
    "/static/uploads/x_rust_leaf.PNG" = "/static/uploads/x_rust_leaf.PNG".
Proof.
  intros run.
  apply (appended_entry_serves_upload Demo.leb Demo.isnan Demo.times100
           Demo.round2 Demo.decode_image Demo.model_predict Demo.ascii_fold
           Demo.save_raises
           (Demo.post_file "../x/rust leaf.PNG" "rust leaf")
           Demo.logged_in run.1.2 Demo.world0 run.2 run.1.1
           (new_record Demo.times100 Demo.round2 "x_rust_leaf.PNG" "Rust"
                       (87 # 100)%Q)).
  - vm_compute. reflexivity.
  - vm_compute. reflexivity.
Defined.


Example login_nul_password_raises :
  Demo.login (Demo.post_form "alice" Demo.nul_password) Demo.anonymous
    Demo.world0
  = (Raised (Exc "PasswordValueError"), Demo.anonymous, Demo.world0).
Proof. reflexivity. Qed.

Example undecodable_upload_is_kept :
  let run := Demo.diagnose (Demo.post_file "leaf.png" "") Demo.logged_in
               Demo.world0 in
  run.1.1 = Raised (Exc "UnidentifiedImageError") /\
  uploads run.2 !! "static/uploads/leaf.png" = Some "".
Proof. vm_compute. split; reflexivity. Qed.

Lemma diagnose_output_outside_labels_witness :
  exists w',
    diagnose Demo.leb Demo.isnan Demo.times100 Demo.round2
      Demo.decode_image Demo.model_six Demo.ascii_fold Demo.save_raises
      (Demo.post_file "leaf.png" "rust leaf") Demo.logged_in Demo.world0
    = (Returned (RenderDiagnose (Some "Error") (Some (PyInt 0)) None),
       Demo.logged_in, w').
Proof.
  apply (diagnose_output_outside_labels Demo.leb Demo.isnan Demo.times100
           Demo.round2 Demo.decode_image Demo.model_six Demo.ascii_fold
           Demo.save_raises
           (Demo.post_file "leaf.png" "rust leaf") Demo.logged_in
           Demo.world0 {| filename := "leaf.png"; stream := "rust leaf" |}
           (SStr "alice") "rust leaf"
           [1 # 100; 2 # 100; 3 # 100; 4 # 100; 5 # 100; 85 # 100]%Q);
    try reflexivity.
  right. exists 5. split; [reflexivity|simpl; lia].
Defined.

Lemma diagnose_history_step_witness :
  let run := Demo.diagnose (Demo.post_file "a b.png" "rust leaf")
               Demo.with_history Demo.world0 in
  run.1.2 !! "user" = Demo.with_history !! "user" /\
  ((successful_append Demo.ascii_fold (Demo.post_file "a b.png" "rust leaf")
      run.1.1 = None /\ run.1.2 = Demo.with_history) \/
   (exists r,
      successful_append Demo.ascii_fold (Demo.post_file "a b.png" "rust leaf")
        run.1.1 = Some r /\
      session_history run.1.2 = SList (Demo.one_record ++ [r]))).
Proof.
  intros run.
  apply (diagnose_history_step Demo.leb Demo.isnan Demo.times100
           Demo.round2 Demo.decode_image Demo.model_predict Demo.ascii_fold
           Demo.save_raises
           (Demo.post_file "a b.png" "rust leaf") Demo.with_history run.1.2
           Demo.world0 run.2 run.1.1 Demo.one_record).
  - vm_compute. reflexivity.
  - reflexivity.
Defined.

Lemma clear_history_then_upload_witness :
  let cleared := clear_history Demo.with_history Demo.world0 in
  let run := Demo.diagnose (Demo.post_file "a b.png" "rust leaf")
               cleared.1.2 cleared.2 in
  cleared.1.2 !! "history" = None /\
  session_history run.1.2
  = SList [new_record Demo.times100 Demo.round2 "a_b.png" "Rust"
                      (87 # 100)%Q].
Proof.
  intros cleared run.
  apply (clear_history_then_upload Demo.leb Demo.isnan Demo.times100
           Demo.round2 Demo.decode_image Demo.model_predict Demo.ascii_fold
           Demo.save_raises
           (Demo.post_file "a b.png" "rust leaf") Demo.with_history
           cleared.1.2 run.1.2 Demo.world0 cleared.2 run.2 cleared.1.1
           run.1.1 (SStr "alice")).
  - reflexivity.
  - vm_compute. reflexivity.
  - vm_compute. reflexivity.
  - vm_compute. reflexivity.
Defined.

Lemma same_storage_name_overwrites_witness :
  let run1 := Demo.diagnose (Demo.post_file "a b.png" "rust leaf")
                Demo.logged_in Demo.world0 in
  let run2 := Demo.diagnose (Demo.post_file "a/b.png" "green")
                run1.1.2 run1.2 in
  uploads run1.2 !! "static/uploads/a_b.png" = Some "rust leaf" /\
  uploads run2.2
  = <["static/uploads/a_b.png" := "green"]> (uploads Demo.world0).
Proof.
  intros run1 run2.
  apply (same_storage_name_overwrites Demo.leb Demo.isnan Demo.times100
           Demo.round2 Demo.decode_image Demo.model_predict Demo.ascii_fold
           Demo.save_raises
           (Demo.post_file "a b.png" "rust leaf")
           (Demo.post_file "a/b.png" "green")
           Demo.logged_in run1.1.2 run2.1.2 Demo.world0 run1.2 run2.2
           run1.1.1 run2.1.1
           {| filename := "a b.png"; stream := "rust leaf" |}
           {| filename := "a/b.png"; stream := "green" |} (SStr "alice"));
    vm_compute; reflexivity.
Defined.

Lemma logout_locks_out_witness :
  let run := @logout Q Demo.with_history Demo.world0 in
  run.1.2 !! "user" = None /\ run.1.2 !! "history" = None /\
  Demo.call_view "" RHistory Demo.get run.1.2 run.2
  = (Returned (Redirect "login"), run.1.2, run.2).
Proof.
  intros run.
  destruct (logout_locks_out Demo.leb Demo.isnan Demo.times100 Demo.round2
              Demo.decode_image Demo.model_predict Demo.ascii_fold
              Demo.save_raises
              Demo.bcrypt_hash Demo.bcrypt_verify
              Demo.with_history run.1.2 Demo.world0 run.2 run.1.1)
    as (_ & _ & Hu & Hh & _ & Hgate & _).
  - vm_compute. reflexivity.
  - split; [exact Hu|]. split; [exact Hh|].
    apply (Hgate "" RHistory Demo.get). reflexivity.
Defined.

Lemma login_grants_access_witness :
  let run := Demo.login (Demo.post_form " alice" "pw123") Demo.anonymous
               Demo.world0 in
  (exists row, In row (users run.2) /\
               run.1.2 !! "user" = Some (SStr (row_username row))) /\
  index run.1.2 run.2 = (Returned RenderIndex, run.1.2, run.2).
Proof.
  intros run.
  destruct (login_grants_access Demo.leb Demo.isnan Demo.times100
              Demo.round2 Demo.decode_image Demo.model_predict
              Demo.ascii_fold Demo.save_raises Demo.bcrypt_verify
              (Demo.post_form " alice" "pw123") Demo.anonymous run.1.2
              Demo.world0 run.2)
    as (Hrow & Hindex & _).
  - vm_compute. reflexivity.
  - split; [exact Hrow|exact Hindex].
Defined.

Lemma logout_then_login_fresh_witness :
  let out := @logout Q Demo.with_history Demo.world0 in
  let run := Demo.login (Demo.post_form "alice" "pw123") out.1.2 out.2 in
  run.1.2 !! "history" = Some (SList []) /\
  session_history run.1.2 = SList [].
Proof.
  intros out run.
  apply (logout_then_login_fresh Demo.bcrypt_verify
           (Demo.post_form "alice" "pw123") Demo.with_history out.1.2
           run.1.2 Demo.world0 out.2 run.2 out.1.1).
  - vm_compute. reflexivity.
  - vm_compute. reflexivity.
Defined.

Lemma relogin_keeps_history_witness :
  let run := Demo.login (Demo.post_form "alice" "pw123") Demo.with_history
               Demo.world0 in
  run.1.2 !! "user" = Some (SStr (Py.strip "alice")) /\
  run.1.2 !! "history" = Some (SList Demo.one_record) /\
  session_history run.1.2 = session_history Demo.with_history.
Proof.
  intros run.
  apply (relogin_keeps_history Demo.bcrypt_verify
           (Demo.post_form "alice" "pw123") Demo.with_history run.1.2
           Demo.world0 run.2 "alice" (SList Demo.one_record)).
  - vm_compute. reflexivity.
  - reflexivity.
  - reflexivity.
Defined.

Lemma demo_store_ok : store_ok (users Demo.world0).
Proof.
  unfold store_ok. simpl. repeat split.
  - apply NoDup_singleton.
  - apply NoDup_singleton.
  - constructor; [|constructor].
    split; [discriminate|]. split; reflexivity.
Qed.

Lemma serve_all_store_ok_witness :
  store_ok (users (Demo.serve_all Demo.visit Demo.anonymous Demo.world0).2).
Proof.
  apply (serve_all_store_ok Demo.leb Demo.isnan Demo.times100 Demo.round2
           Demo.decode_image Demo.model_predict Demo.ascii_fold Demo.save_raises
           Demo.bcrypt_hash Demo.bcrypt_verify Demo.visit Demo.anonymous
           Demo.world0 demo_store_ok).
Defined.

Example visit_adds_one_row :
  map row_username
      (users (Demo.serve_all Demo.visit Demo.anonymous Demo.world0).2)
  = ["alice"; "bob"].
Proof. vm_compute. reflexivity. Qed.

Lemma demo_session_ok : session_ok Demo.anonymous.
Proof.
  split; intros v Hv; unfold Demo.anonymous in Hv;
    rewrite lookup_empty in Hv; discriminate.
Qed.

Lemma serve_all_session_ok_witness :
  session_ok (Demo.serve_all (take 4 Demo.visit) Demo.anonymous
                Demo.world0).1.
Proof.
  apply (serve_all_session_ok Demo.leb Demo.isnan Demo.times100 Demo.round2
           Demo.decode_image Demo.model_predict Demo.ascii_fold Demo.save_raises
           Demo.bcrypt_hash Demo.bcrypt_verify (take 4 Demo.visit)
           Demo.anonymous Demo.world0 demo_session_ok).
Defined.

Example visit_history_after_two_uploads :
  session_history
    (Demo.serve_all (take 4 Demo.visit) Demo.anonymous Demo.world0).1
  = SList [new_record Demo.times100 Demo.round2 "a_b.png" "Rust"
                      (87 # 100)%Q;
           new_record Demo.times100 Demo.round2 "a_b.png" "Healthy"
                      (90 # 100)%Q].
Proof. vm_compute. reflexivity. Qed.

Lemma non_post_keeps_stored_state_witness :
  (Demo.call_view "" RSignup Demo.get Demo.logged_in Demo.world0).2
  = Demo.world0 /\
  (RSignup <> RLogout -> RSignup <> RClearHistory ->
   (Demo.call_view "" RSignup Demo.get Demo.logged_in Demo.world0).1.2
   = Demo.logged_in).
Proof.
  apply (non_post_keeps_stored_state Demo.leb Demo.isnan Demo.times100
           Demo.round2 Demo.decode_image Demo.model_predict Demo.ascii_fold
           Demo.save_raises
           Demo.bcrypt_hash Demo.bcrypt_verify "" RSignup Demo.get
           Demo.logged_in Demo.world0).
  discriminate.
Defined.

Lemma allowed_file_last_segment_witness :
  allowed_file ("../archive.tar" +:+ "." +:+ "JPeG")
  = in_strings (Py.lower "JPeG") ALLOWED_EXTENSIONS /\
  allowed_file ("../archive.tar" +:+ "." +:+ "JPeG")
  = allowed_file ("leaf" +:+ "." +:+ "jpeg").
Proof.
  apply (allowed_file_last_segment "../archive.tar" "leaf" "JPeG" "jpeg");
    reflexivity.
Defined.
